(** * Cross-venue spread monitor (main2.py): embedding and properties

    The script polls two order-book pages (MEXC through [driver1], LBank
    through [driver2]), keeps four prices per tick, picks one of the two
    cross-venue directions, computes the percentage divergence of the picked
    pair and prints an alert when it exceeds 1.5 and the alert text changed.

    Python's [float] is IEEE 754 binary64, which is Rocq's primitive [float];
    properties quantified over all floats are proved through the
    specification [Prim2SF] of the primitive operations. *)

From Stdlib Require Import ZArith Lia List Bool Ascii String DecimalString.
From Stdlib Require Import Floats.
Import ListNotations.

Local Open Scope string_scope.
Local Open Scope list_scope.

(** ** Exceptions, results and the console *)

(** The subclasses of Python's [Exception] the loop body can meet: the two
    raised by a page read ([find_element], [float(text)]), a lost browser
    session, the float division, and a failing clock/formatter call. *)
Inductive exn : Type :=
| NoSuchElementException
| ValueError
| WebDriverException
| ZeroDivisionError
| RuntimeError.

Inductive result (A : Type) : Type :=
| Ok (a : A)
| Raise (e : exn).
Arguments Ok {A} a.
Arguments Raise {A} e.

(** What [print] received: a string, or an exception object ([print(e)]). *)
Inductive printed : Type :=
| PrintText (s : string)
| PrintExn (e : exn).

(** ** The variables of the loop body

    The four [data_last_*] locals, the dedup key [old_text] and the console.
    The locals start each tick as the int literal [0]; lines 72-75 turn them
    into floats with [float(x)], so they are kept as floats from the start
    ([float(0)] is [0.0], [float] of a float is the float). *)
Record Frame : Type := mkFrame {
  data_last_sell_mexc : float;
  data_last_buy_mexc : float;
  data_last_sell_lbank : float;
  data_last_buy_lbank : float;
  old_text : string;
  stdout : list printed
}.

(** ** Statements: state with exceptions

    A statement maps a frame to its outcome and the frame it leaves; a raise
    keeps every assignment made before it. *)
Definition Py (A : Type) : Type := Frame -> result A * Frame.

Definition ret {A} (a : A) : Py A := fun fr => (Ok a, fr).

Definition raise {A} (e : exn) : Py A := fun fr => (Raise e, fr).

Definition bind {A B} (m : Py A) (k : A -> Py B) : Py B :=
  fun fr =>
    match m fr with
    | (Ok a, fr') => k a fr'
    | (Raise e, fr') => (Raise e, fr')
    end.

Notation "x <- m ;; k" := (bind m (fun x => k))
  (at level 61, m at next level, right associativity).
Notation "m ;; k" := (bind m (fun _ => k))
  (at level 61, right associativity).

(** [try: body except Exception as e: handler e] *)
Definition try_except (body : Py unit) (handler : exn -> Py unit) : Py unit :=
  fun fr =>
    match body fr with
    | (Ok tt, fr') => (Ok tt, fr')
    | (Raise e, fr') => handler e fr'
    end.

(** [pass] *)
Definition pass : Py unit := ret tt.

(** A value produced outside the frame (a page read, the clock). *)
Definition lift {A} (r : result A) : Py A := fun fr => (r, fr).

Definition get : Py Frame := fun fr => (Ok fr, fr).

Definition print (p : printed) : Py unit :=
  fun fr =>
    (Ok tt, mkFrame (data_last_sell_mexc fr) (data_last_buy_mexc fr)
              (data_last_sell_lbank fr) (data_last_buy_lbank fr)
              (old_text fr) (stdout fr ++ [p])).

Definition set_old_text (s : string) : Py unit :=
  fun fr =>
    (Ok tt, mkFrame (data_last_sell_mexc fr) (data_last_buy_mexc fr)
              (data_last_sell_lbank fr) (data_last_buy_lbank fr)
              s (stdout fr)).

Definition set_data_last_sell_mexc (v : float) : Py unit :=
  fun fr =>
    (Ok tt, mkFrame v (data_last_buy_mexc fr)
              (data_last_sell_lbank fr) (data_last_buy_lbank fr)
              (old_text fr) (stdout fr)).

Definition set_data_last_buy_mexc (v : float) : Py unit :=
  fun fr =>
    (Ok tt, mkFrame (data_last_sell_mexc fr) v
              (data_last_sell_lbank fr) (data_last_buy_lbank fr)
              (old_text fr) (stdout fr)).

Definition set_data_last_sell_lbank (v : float) : Py unit :=
  fun fr =>
    (Ok tt, mkFrame (data_last_sell_mexc fr) (data_last_buy_mexc fr)
              v (data_last_buy_lbank fr)
              (old_text fr) (stdout fr)).

Definition set_data_last_buy_lbank (v : float) : Py unit :=
  fun fr =>
    (Ok tt, mkFrame (data_last_sell_mexc fr) (data_last_buy_mexc fr)
              (data_last_sell_lbank fr) v
              (old_text fr) (stdout fr)).

(** [for x in xs: body x] *)
Fixpoint for_in {A} (xs : list A) (body : A -> Py unit) : Py unit :=
  match xs with
  | [] => ret tt
  | x :: xs' => body x ;; for_in xs' body
  end.

(** [range(a, b)] *)
Definition range (a b : nat) : list nat := seq a (b - a).

(** ** Page reads

    A page, as one tick sees it: for an XPath, the outcome of
    [float(driver.find_element(By.XPATH, xpath).text)], the parsed price or
    the exception raised by the lookup or by the parse. *)
Definition WebDriver : Type := string -> result float.

Definition read_price (driver : WebDriver) (find_xpath : string) : Py float :=
  lift (driver find_xpath).

(** The double quote inside the XPath literals. *)
Definition dq : string := String (ascii_of_nat 34) EmptyString.

(** [f"{i}"] for the loop index. *)
Definition str_nat (i : nat) : string := NilZero.string_of_uint (Nat.to_uint i).

Definition mexc_orderbook : string :=
  "//*[@id=" ++ dq ++ "mexc-web-inspection-futures-exchange-orderbook" ++ dq ++ "]".

Definition lbank_orderbook : string :=
  "//*[@id=" ++ dq ++ "orderbook_container" ++ dq ++ "]".

Definition xpath_sell_mexc (i : nat) : string :=
  mexc_orderbook ++ "/div[2]/div[2]/div[1]/div[1]/div[" ++ str_nat i ++ "]/div[1]/span".

Definition xpath_buy_mexc : string :=
  mexc_orderbook ++ "/div[2]/div[2]/div[3]/div[1]/div[1]/div[1]/span".

Definition xpath_sell_lbank (i : nat) : string :=
  lbank_orderbook ++ "/div[2]/div[1]/ul/li[" ++ str_nat i ++ "]/div/span".

(** The loop index is not used: the row is the literal [li[1]]. *)
Definition xpath_buy_lbank (i : nat) : string :=
  lbank_orderbook ++ "/div[2]/div[3]/ul/li[1]/div/span".

(** ** Field extraction (lines 31-75) *)

(** Lines 31-36. *)
Definition reset_fields : Py unit :=
  set_data_last_sell_mexc 0%float ;;
  set_data_last_buy_mexc 0%float ;;
  set_data_last_sell_lbank 0%float ;;
  set_data_last_buy_lbank 0%float.

(** Lines 38-44. *)
Definition scan_sell_mexc (driver1 : WebDriver) : Py unit :=
  try_except
    (for_in (range 1 20) (fun i =>
       v <- read_price driver1 (xpath_sell_mexc i) ;;
       set_data_last_sell_mexc v))
    (fun _ => pass).

(** Lines 46-51. *)
Definition read_buy_mexc (driver1 : WebDriver) : Py unit :=
  try_except
    (v <- read_price driver1 xpath_buy_mexc ;;
     set_data_last_buy_mexc v)
    (fun _ => pass).

(** Lines 55-61. *)
Definition scan_sell_lbank (driver2 : WebDriver) : Py unit :=
  try_except
    (for_in (range 1 20) (fun i =>
       v <- read_price driver2 (xpath_sell_lbank i) ;;
       set_data_last_sell_lbank v))
    (fun _ => pass).

(** Lines 64-70. *)
Definition scan_buy_lbank (driver2 : WebDriver) : Py unit :=
  try_except
    (for_in (range 1 20) (fun i =>
       v <- read_price driver2 (xpath_buy_lbank i) ;;
       set_data_last_buy_lbank v))
    (fun _ => pass).

(** Lines 31-75: the four fields of one tick. *)
Definition acquire (driver1 driver2 : WebDriver) : Py unit :=
  reset_fields ;;
  scan_sell_mexc driver1 ;;
  read_buy_mexc driver1 ;;
  scan_sell_lbank driver2 ;;
  scan_buy_lbank driver2.

(** ** Candidate and alert (lines 77-118) *)

(** Python's [x / y] on floats: [ZeroDivisionError] when [y == 0.0] (either
    zero), the IEEE quotient otherwise. *)
Definition py_truediv (x y : float) : Py float :=
  if (y =? 0)%float then raise ZeroDivisionError else ret (x / y)%float.

(** Line 87 (and 107): [diff_absolute / ((data1 + data2) / 2) * 100]. *)
Definition percent_of (diff_absolute data1 data2 : float) : Py float :=
  mean <- py_truediv (data1 + data2)%float 2%float ;;
  ratio <- py_truediv diff_absolute mean ;;
  ret (ratio * 100)%float.

(** Line 81: the test that sends the tick into the first branch (buy on MEXC,
    sell on LBank); the [else] branch is the other direction. *)
Definition mexc_buy_branch_taken (fr : Frame) : bool :=
  let mex_buy_and_lbnak_sell := abs (data_last_buy_mexc fr - data_last_sell_lbank fr) in
  let lbank_buy_and_mex_sell := abs (data_last_sell_mexc fr - data_last_buy_lbank fr) in
  (mex_buy_and_lbnak_sell <? lbank_buy_and_mex_sell)%float.

(** colorama's escape sequences. *)
Definition esc : string := String (ascii_of_nat 27) EmptyString.
Definition Fore_RED : string := esc ++ "[31m".
Definition Fore_GREEN : string := esc ++ "[32m".
Definition Fore_CYAN : string := esc ++ "[36m".
Definition Style_RESET_ALL : string := esc ++ "[0m".

Section Rendering.

(** Python's float formatting, not part of the script: [f"{x}"] and
    [f"{x:.Nf}"]. *)
Variable str_float : float -> string.
Variable format_f : nat -> float -> string.

(** Lines 89-92 (and 109-112); the two branches differ in the colours of
    the two prices. *)
Definition alert_text (c1 c2 : string) (data1 data2 diff_absolute diff_percent : float)
  : string :=
  ("DEBT_USDT    =>  " ++ Style_RESET_ALL ++ "MEXC Future: " ++ c1 ++ str_float data1
     ++ Style_RESET_ALL ++ " |")
  ++ (" LBank Future: " ++ c2 ++ str_float data2 ++ Style_RESET_ALL ++ " | ")
  ++ ("Abs Diff: " ++ Fore_CYAN ++ format_f 5 diff_absolute ++ Style_RESET_ALL ++ " | ")
  ++ ("% Diff: " ++ Fore_CYAN ++ format_f 2 diff_percent ++ "%" ++ Style_RESET_ALL ++ " | ").

(** Lines 93-95 (and 113-115); [now] is [str(jdatetime.datetime.now())]. *)
Definition emit_if_changed (new_text : string) (now : result string) : Py unit :=
  fr <- get ;;
  if negb (String.eqb (old_text fr) new_text) then
    stamp <- lift now ;;
    print (PrintText (new_text ++ "Time: " ++ stamp)) ;;
    set_old_text new_text
  else pass.

(** Lines 83-98 (and 103-118). *)
Definition alert_branch (c1 c2 : string) (data1 data2 : float) (now : result string)
  : Py unit :=
  try_except
    (let diff_absolute := abs (data1 - data2) in
     diff_percent <- percent_of diff_absolute data1 data2 ;;
     if (1.5 <? diff_percent)%float then
       emit_if_changed (alert_text c1 c2 data1 data2 diff_absolute diff_percent) now
     else pass)
    (fun e => print (PrintExn e) ;; pass).

(** Lines 77-118. *)
Definition decide (now : result string) : Py unit :=
  fr <- get ;;
  if mexc_buy_branch_taken fr then
    alert_branch Fore_GREEN Fore_RED (data_last_buy_mexc fr) (data_last_sell_lbank fr) now
  else
    alert_branch Fore_RED Fore_GREEN (data_last_sell_mexc fr) (data_last_buy_lbank fr) now.

(** One iteration of [while True]. *)
Record Tick : Type := mkTick {
  page1 : WebDriver;
  page2 : WebDriver;
  now : result string
}.

Definition tick (t : Tick) : Py unit :=
  acquire (page1 t) (page2 t) ;;
  decide (now t).

(** The first [length ts] iterations of the loop; it is left only by an
    exception that escapes an iteration. *)
Fixpoint run (ts : list Tick) : Py unit :=
  match ts with
  | [] => ret tt
  | t :: ts' => tick t ;; run ts'
  end.

(** Line 25 and the empty console at start. *)
Definition initial : Frame := mkFrame 0%float 0%float 0%float 0%float "" [].

End Rendering.

(** ** Definitions used by the statements *)

(** The pair of prices line 81 selects: [(data1, data2)] of the branch taken. *)
Definition selected_pair (fr : Frame) : float * float :=
  if mexc_buy_branch_taken fr
  then (data_last_buy_mexc fr, data_last_sell_lbank fr)
  else (data_last_sell_mexc fr, data_last_buy_lbank fr).

(** What a scan loop leaves in its variable, as a function of the outcomes of
    its reads in order: every success overwrites, the first failure stops. *)
Fixpoint scan_value (reads : list (result float)) (current : float) : float :=
  match reads with
  | [] => current
  | Ok v :: reads' => scan_value reads' v
  | Raise _ :: _ => current
  end.

(** [v] is the price of the last row read before the first failing read of a
    scan over rows 1..19 ([reads i] is the outcome for row [i]), and the
    sentinel 0 when row 1 already fails. *)
Definition last_read_before_failure (reads : nat -> result float) (v : float) : Prop :=
  exists k : nat,
    k <= 19
    /\ (forall i, 1 <= i <= k -> exists p, reads i = Ok p)
    /\ (k < 19 -> exists e, reads (S k) = Raise e)
    /\ match k with
       | O => v = 0%float
       | S _ => reads k = Ok v
       end.

(** A finite float with sign [s], exponent at least [emin] and magnitude at
    least [2^k], or the infinity of that sign. *)
Definition magnitude_at_least (emin : Z) (s : bool) (k : Z) (x : spec_float) : Prop :=
  match x with
  | S754_finite s' m e => s' = s /\ (emin <= e)%Z /\ (k <= Z.log2 (Zpos m) + e)%Z
  | S754_infinity s' => s' = s
  | _ => False
  end.

(** ** Pages and formatters of the concrete statements *)

(** A page on which every lookup fails. *)
Definition page_down : WebDriver := fun _ => Raise NoSuchElementException.

(** An LBank page with one ask row at 5 and the first bid row at 4. *)
Definition page_lbank_5_4 : WebDriver :=
  fun xpath =>
    if String.eqb xpath (xpath_sell_lbank 1) then Ok 5%float
    else if String.eqb xpath (xpath_buy_lbank 1) then Ok 4%float
    else Raise NoSuchElementException.

(** A MEXC page with one ask row at 100 and the bid at 98. *)
Definition page_mexc_100_98 : WebDriver :=
  fun xpath =>
    if String.eqb xpath (xpath_sell_mexc 1) then Ok 100%float
    else if String.eqb xpath xpath_buy_mexc then Ok 98%float
    else Raise NoSuchElementException.

(** An LBank page with one ask row at 103 and the first bid row at 100. *)
Definition page_lbank_103_100 : WebDriver :=
  fun xpath =>
    if String.eqb xpath (xpath_sell_lbank 1) then Ok 103%float
    else if String.eqb xpath (xpath_buy_lbank 1) then Ok 100%float
    else Raise NoSuchElementException.

(** A MEXC page with three ask rows, 100, 101 and 102, whose fourth row does
    not parse, and the bid at 99. *)
Definition page_mexc_three_asks : WebDriver :=
  fun xpath =>
    if String.eqb xpath (xpath_sell_mexc 1) then Ok 100%float
    else if String.eqb xpath (xpath_sell_mexc 2) then Ok 101%float
    else if String.eqb xpath (xpath_sell_mexc 3) then Ok 102%float
    else if String.eqb xpath (xpath_sell_mexc 4) then Raise ValueError
    else if String.eqb xpath xpath_buy_mexc then Ok 99%float
    else Raise NoSuchElementException.

(** An LBank page with three ask rows, 103, 104 and 105, whose fourth row is
    missing, and the first bid row at 100. *)
Definition page_lbank_three_asks : WebDriver :=
  fun xpath =>
    if String.eqb xpath (xpath_sell_lbank 1) then Ok 103%float
    else if String.eqb xpath (xpath_sell_lbank 2) then Ok 104%float
    else if String.eqb xpath (xpath_sell_lbank 3) then Ok 105%float
    else if String.eqb xpath (xpath_buy_lbank 1) then Ok 100%float
    else Raise NoSuchElementException.

(** Stand-ins for Python's float formatting, to run the loop on examples. *)
Definition sketch_str_float (x : float) : string := "<float>".
Definition sketch_format_f (digits : nat) (x : float) : string := "<fixed>".

(** ** Definitions used by the statements about the console *)

(** The last alert line on the console, if any. *)
Fixpoint last_alert (out : list printed) : option string :=
  match out with
  | [] => None
  | PrintText s :: out' =>
      match last_alert out' with
      | Some s' => Some s'
      | None => Some s
      end
  | PrintExn _ :: out' => last_alert out'
  end.

(** The dedup key is the last alert line without its timestamp, and is still
    empty when no alert was printed. *)
Definition key_matches_console (fr : Frame) : Prop :=
  match last_alert (stdout fr) with
  | None => old_text fr = ""%string
  | Some line => exists stamp, line = (old_text fr ++ "Time: " ++ stamp)%string
  end.

(** Every read of the page fails. *)
Definition all_reads_fail (driver : WebDriver) : Prop :=
  forall xpath, exists e, driver xpath = Raise e.

(** The clock call of the tick returns. *)
Definition clock_works (now : result string) : Prop :=
  exists stamp, now = Ok stamp.

(** A console line is an alert or the diagnostic of a zero division. *)
Definition alert_or_zero_division (p : printed) : Prop :=
  match p with
  | PrintText _ => True
  | PrintExn e => e = ZeroDivisionError
  end.



(** ** IEEE 754 facts used below

    Stated on [spec_float], the executable specification of the primitive
    operations, for any precision and exponent range. *)
Section SpecFloatFacts.

Variables prec emax : Z.

Lemma SFadd_comm (x y : spec_float) : SFadd prec emax x y = SFadd prec emax y x.
Proof.
  destruct x as [sx|sx| |sx mx ex], y as [sy|sy| |sy my ey]; cbn [SFadd];
    try reflexivity; try (destruct sx, sy; reflexivity).
  rewrite (Z.min_comm ey ex), Z.add_comm. reflexivity.
Qed.

(** The sign given to the rounding only ends up as the sign of its result. *)
Lemma SFabs_binary_round_aux (s1 s2 : bool) (m e : Z) (l : location) :
  SFabs (binary_round_aux prec emax s1 m e l)
  = SFabs (binary_round_aux prec emax s2 m e l).
Proof.
  unfold binary_round_aux.
  destruct (shr_fexp prec emax m e l) as [mrs' e'].
  destruct (shr_fexp prec emax _ e' loc_Exact) as [mrs'' e''].
  destruct (shr_m mrs''); try reflexivity.
  destruct (Z.leb e'' (emax - prec)); reflexivity.
Qed.

Lemma SFabs_binary_normalize_opp (m e : Z) :
  SFabs (binary_normalize prec emax (- m) e false)
  = SFabs (binary_normalize prec emax m e false).
Proof.
  destruct m as [|p|p]; cbn [Z.opp binary_normalize]; try reflexivity;
    unfold binary_round; destruct (shl_align _ _ _) as [mz ez];
    apply SFabs_binary_round_aux.
Qed.

Lemma SFabs_sub_swap (x y : spec_float) :
  SFabs (SFsub prec emax x y) = SFabs (SFsub prec emax y x).
Proof.
  destruct x as [sx|sx| |sx mx ex], y as [sy|sy| |sy my ey]; cbn [SFsub];
    try reflexivity; try (destruct sx, sy; reflexivity).
  rewrite (Z.min_comm ey ex).
  rewrite <- SFabs_binary_normalize_opp. f_equal. f_equal. lia.
Qed.

Lemma SFcompare_swap (x y : spec_float) :
  SFcompare y x = option_map CompOpp (SFcompare x y).
Proof.
  destruct x as [sx|sx| |sx mx ex], y as [sy|sy| |sy my ey]; cbn [SFcompare option_map];
    try reflexivity; try (destruct sx, sy; reflexivity);
    try (destruct sx; reflexivity); try (destruct sy; reflexivity).
  destruct sx, sy; cbn [CompOpp]; try reflexivity;
    rewrite (Z.compare_antisym ex ey); destruct (ex ?= ey)%Z; cbn [CompOpp];
      try reflexivity.
  - rewrite (Pos.compare_cont_antisym mx my Eq). reflexivity.
  - rewrite (Pos.compare_cont_antisym mx my Eq). reflexivity.
Qed.

Lemma SFleb_not_SFltb (x y : spec_float) :
  SFleb x y = true -> SFltb y x = false.
Proof.
  unfold SFleb, SFltb. rewrite (SFcompare_swap x y).
  destruct (SFcompare x y) as [[ | | ]|]; cbn; congruence.
Qed.

Lemma SFeqb_refl_nan (x : spec_float) : SFeqb x x = false -> x = S754_nan.
Proof.
  unfold SFeqb. destruct x as [s|s| |s m e]; cbn [SFcompare]; try discriminate;
    try reflexivity.
  - destruct s; discriminate.
  - rewrite Z.compare_refl, Pos.compare_cont_refl. destruct s; discriminate.
Qed.

End SpecFloatFacts.

(** *** Rounding keeps magnitude

    What is needed to see that the mean of two positive floats is not zero:
    rounding to the format never moves the leading bit of a positive number
    down, as long as its exponent is at least [emin]. *)
Section Rounding.

Variables prec emax : Z.
Hypothesis prec_gt_1 : (1 < prec)%Z.

Local Open Scope Z_scope.

Local Abbreviation emin := (SpecFloat.emin prec emax).
Local Abbreviation at_least := (magnitude_at_least emin).

Lemma fexp_ge_emin (e : Z) : emin <= fexp prec emax e.
Proof. unfold fexp. apply Z.le_max_r. Qed.

Lemma digits2_pos_log2 (p : positive) :
  Zpos (digits2_pos p) = Z.log2 (Zpos p) + 1.
Proof.
  assert (H : forall q, digits2_pos q = Pos.size q)
    by (induction q as [q IH|q IH|]; cbn; congruence).
  rewrite H. destruct p; cbn [Z.log2 Pos.size]; lia.
Qed.

Lemma shr_m_shr_1 (mrs : shr_record) :
  0 <= shr_m mrs -> shr_m (shr_1 mrs) = Z.div2 (shr_m mrs).
Proof.
  destruct mrs as [m r s]. cbn [shr_m shr_1].
  destruct m as [|[p|p|]|p]; cbn; intros H; try reflexivity; lia.
Qed.

Lemma shr_m_iter_shr_1 (p : positive) (mrs : shr_record) :
  0 <= shr_m mrs ->
  shr_m (iter_pos shr_1 p mrs) = Z.shiftr (shr_m mrs) (Zpos p).
Proof.
  revert mrs.
  assert (step : forall mrs, 0 <= shr_m mrs ->
            shr_m (shr_1 mrs) = Z.shiftr (shr_m mrs) 1 /\ 0 <= shr_m (shr_1 mrs)).
  { intros mrs H. rewrite shr_m_shr_1 by assumption. rewrite Z.div2_spec.
    split; [reflexivity|]. apply Z.shiftr_nonneg. assumption. }
  induction p as [p IH|p IH|]; intros mrs H; cbn [iter_pos].
  - destruct (step mrs H) as [E1 N1].
    assert (N2 : 0 <= shr_m (iter_pos shr_1 p (shr_1 mrs))).
    { rewrite IH by assumption. apply Z.shiftr_nonneg. assumption. }
    rewrite IH, IH, E1 by assumption.
    rewrite !Z.shiftr_shiftr by lia. f_equal. lia.
  - assert (N2 : 0 <= shr_m (iter_pos shr_1 p mrs)).
    { rewrite IH by assumption. apply Z.shiftr_nonneg. assumption. }
    rewrite IH, IH by assumption.
    rewrite Z.shiftr_shiftr by lia. f_equal. lia.
  - apply step. assumption.
Qed.

Lemma shr_m_of_loc (m : Z) (l : location) : shr_m (shr_record_of_loc m l) = m.
Proof. destruct l as [|[ | | ]]; reflexivity. Qed.

Lemma shiftr_keeps_magnitude (m n : Z) :
  0 < m -> 0 <= n <= Z.log2 m ->
  0 < Z.shiftr m n /\ Z.log2 (Z.shiftr m n) = Z.log2 m - n.
Proof.
  intros Hm Hn.
  assert (L : Z.log2 (Z.shiftr m n) = Z.log2 m - n)
    by (rewrite Z.log2_shiftr by assumption; lia).
  split; [|assumption].
  rewrite Z.shiftr_div_pow2 by lia.
  apply Z.div_str_pos. split; [apply Z.pow_pos_nonneg; lia|].
  transitivity (2 ^ Z.log2 m).
  - apply Z.pow_le_mono_r; lia.
  - apply Z.log2_spec. assumption.
Qed.

(** Truncating to the format keeps a positive mantissa positive and keeps
    the position of its leading bit, when the exponent is not below [emin]. *)
Lemma shr_fexp_magnitude (m e : Z) (l : location) :
  0 < m -> emin <= e ->
  0 < shr_m (fst (shr_fexp prec emax m e l))
  /\ emin <= snd (shr_fexp prec emax m e l)
  /\ Z.log2 (shr_m (fst (shr_fexp prec emax m e l))) + snd (shr_fexp prec emax m e l)
     = Z.log2 m + e.
Proof.
  intros Hm He. unfold shr_fexp, shr.
  destruct m as [|p|p]; try lia. cbn [Zdigits2].
  rewrite digits2_pos_log2.
  set (n := fexp prec emax (Z.log2 (Z.pos p) + 1 + e) - e).
  assert (Hn : n <= Z.log2 (Z.pos p)).
  { pose proof (Z.log2_nonneg (Z.pos p)). unfold n, fexp. lia. }
  destruct n as [|k|k] eqn:En; cbn [fst snd]; rewrite ?shr_m_of_loc;
    try (repeat split; lia).
  rewrite shr_m_iter_shr_1 by (rewrite shr_m_of_loc; lia).
  rewrite shr_m_of_loc.
  destruct (shiftr_keeps_magnitude (Z.pos p) (Z.pos k)) as [P L]; lia.
Qed.

Lemma round_nearest_even_ge (m : Z) (l : location) :
  0 <= m -> m <= round_nearest_even m l.
Proof.
  intros H. destruct l as [|[ | | ]]; cbn [round_nearest_even]; try lia.
  destruct (Z.even m); lia.
Qed.

Lemma binary_round_aux_at_least (s : bool) (m e : Z) (l : location) :
  0 < m -> emin <= e ->
  at_least s (Z.log2 m + e) (binary_round_aux prec emax s m e l).
Proof.
  intros Hm He. unfold binary_round_aux.
  destruct (shr_fexp_magnitude m e l Hm He) as (P1 & E1 & L1).
  destruct (shr_fexp prec emax m e l) as [mrs' e']. cbn [fst snd] in P1, E1, L1.
  set (m1 := round_nearest_even (shr_m mrs') (loc_of_shr_record mrs')).
  assert (G : shr_m mrs' <= m1) by (apply round_nearest_even_ge; lia).
  assert (Hm1 : 0 < m1) by lia.
  destruct (shr_fexp_magnitude m1 e' loc_Exact Hm1 E1) as (P2 & E2 & L2).
  destruct (shr_fexp prec emax m1 e' loc_Exact) as [mrs'' e''].
  cbn [fst snd] in P2, E2, L2.
  assert (M : Z.log2 (shr_m mrs') <= Z.log2 m1) by (apply Z.log2_le_mono; assumption).
  destruct (shr_m mrs'') as [|q|q] eqn:Eq; try lia.
  destruct (Z.leb e'' (emax - prec)); cbn [magnitude_at_least]; [|reflexivity].
  repeat split; try assumption. lia.
Qed.

Lemma at_least_weaken (s : bool) (k k' : Z) (x : spec_float) :
  k' <= k -> at_least s k x -> at_least s k' x.
Proof.
  intros H. destruct x as [| | |s' m e]; cbn [magnitude_at_least]; try tauto.
  intros (S & E & L). repeat split; try assumption. lia.
Qed.

Lemma log2_iter_xO (m d : positive) :
  Z.log2 (Zpos (Pos.iter xO m d)) = Z.log2 (Zpos m) + Zpos d.
Proof.
  induction d as [|d IH] using Pos.peano_ind.
  - cbn [Pos.iter]. rewrite Pos2Z.inj_xO, Z.log2_double; lia.
  - rewrite Pos.iter_succ, Pos2Z.inj_xO, Z.log2_double, IH; lia.
Qed.

Lemma shl_align_magnitude (mx : positive) (ex ex' : Z) :
  emin <= ex -> emin <= ex' ->
  emin <= snd (shl_align mx ex ex')
  /\ Z.log2 (Zpos (fst (shl_align mx ex ex'))) + snd (shl_align mx ex ex')
     = Z.log2 (Zpos mx) + ex.
Proof.
  intros He He'. unfold shl_align.
  destruct (ex' - ex) as [|d|d] eqn:E; cbn [fst snd]; try lia.
  rewrite log2_iter_xO. lia.
Qed.

Lemma binary_round_at_least (s : bool) (mx : positive) (ex : Z) :
  emin <= ex ->
  at_least s (Z.log2 (Zpos mx) + ex) (binary_round prec emax s mx ex).
Proof.
  intros He. unfold binary_round.
  destruct (shl_align_magnitude mx ex
              (fexp prec emax (Zpos (digits2_pos mx) + ex)) He (fexp_ge_emin _))
    as [E L].
  destruct (shl_align mx ex _) as [mz ez]. cbn [fst snd] in E, L.
  rewrite <- L. apply binary_round_aux_at_least; [reflexivity|assumption].
Qed.

Lemma valid_finite_bounds (s : bool) (m : positive) (e : Z) :
  SpecFloat.valid_binary prec emax (S754_finite s m e) = true ->
  emin <= e /\ Z.log2 (Zpos m) + 1 <= prec.
Proof.
  cbn [SpecFloat.valid_binary]. unfold bounded, canonical_mantissa.
  rewrite andb_true_iff, Z.eqb_eq, digits2_pos_log2. unfold fexp. lia.
Qed.

(** The sum of two positive finite floats is at least twice the smallest
    positive float. *)
Lemma SFadd_pos_at_least (mx my : positive) (ex ey : Z) :
  emin <= ex -> emin <= ey ->
  at_least false (emin + 1)
    (SFadd prec emax (S754_finite false mx ex) (S754_finite false my ey)).
Proof.
  intros Hx Hy. cbn [SFadd cond_Zopp].
  set (a := fst (shl_align mx ex (Z.min ex ey))).
  set (b := fst (shl_align my ey (Z.min ex ey))).
  change (Z.pos a + Z.pos b) with (Z.pos (a + b)). cbn [binary_normalize].
  apply at_least_weaken with (k := Z.log2 (Z.pos (a + b)) + Z.min ex ey).
  - assert (1 <= Z.log2 (Z.pos (a + b))).
    { change 1 with (Z.log2 2). apply Z.log2_le_mono. lia. }
    lia.
  - apply binary_round_at_least. lia.
Qed.

(** Halving such a float does not underflow to zero: the divisor is the
    float two, mantissa [2^(prec-1)] and exponent [2 - prec]. *)
Lemma SFdiv_two_at_least (m two_m : positive) (e : Z) :
  Zpos two_m = 2 ^ (prec - 1) ->
  emin <= e -> Z.log2 (Zpos m) + 1 <= prec -> emin + 1 <= Z.log2 (Zpos m) + e ->
  at_least false emin
    (SFdiv prec emax (S754_finite false m e) (S754_finite false two_m (2 - prec))).
Proof.
  intros Htwo He Hd Hk. cbn [SFdiv xorb]. unfold SFdiv_core_binary.
  cbn [Zdigits2]. rewrite !digits2_pos_log2.
  assert (L2 : Z.log2 (Z.pos two_m) = prec - 1)
    by (rewrite Htwo; apply Z.log2_pow2; lia).
  rewrite L2.
  set (e' := Z.min (fexp prec emax (Z.log2 (Z.pos m) + 1 + e - (prec - 1 + 1 + (2 - prec))))
               (e - (2 - prec))).
  set (s := e - (2 - prec) - e').
  assert (He' : emin <= e').
  { unfold e'. pose proof (fexp_ge_emin (Z.log2 (Z.pos m) + 1 + e - (prec - 1 + 1 + (2 - prec)))).
    lia. }
  assert (Hs : 0 <= s /\ prec - 1 <= Z.log2 (Z.pos m) + s).
  { unfold s, e', fexp. lia. }
  set (m' := match s with Z.pos _ => Z.shiftl (Z.pos m) s | 0 => Z.pos m | Z.neg _ => 0 end).
  assert (Hm' : m' = Z.pos m * 2 ^ s).
  { unfold m'. destruct s as [|p|p]; [cbn; lia| |lia].
    rewrite Z.shiftl_mul_pow2; lia. }
  destruct (Z.div_eucl m' (Z.pos two_m)) as [q r] eqn:D.
  assert (Hq : q = m' / Z.pos two_m) by (unfold Z.div; rewrite D; reflexivity).
  assert (Q : 0 < q).
  { assert (1 <= q); [|lia]. rewrite Hq.
    apply Z.div_le_lower_bound; [lia|]. rewrite Htwo, Hm', Z.mul_1_r.
    transitivity (2 ^ Z.log2 (Z.pos m) * 2 ^ s).
    - rewrite <- Z.pow_add_r by (try apply Z.log2_nonneg; lia).
      apply Z.pow_le_mono_r; lia.
    - apply Z.mul_le_mono_nonneg_r; [apply Z.pow_nonneg; lia|].
      apply Z.log2_spec. lia. }
  apply at_least_weaken with (k := Z.log2 q + e').
  - pose proof (Z.log2_nonneg q). lia.
  - apply binary_round_aux_at_least; assumption.
Qed.

Lemma at_least_nonzero (s z : bool) (k : Z) (x : spec_float) :
  at_least s k x -> SFeqb x (S754_zero z) = false.
Proof.
  destruct x as [| | |s' m e]; cbn [magnitude_at_least]; try tauto; intros _;
    unfold SFeqb; cbn [SFcompare];
    match goal with |- context [if ?b then _ else _] => destruct b end; reflexivity.
Qed.

End Rounding.

(** *** Binary64, through [Prim2SF] *)
Section Binary64.

Local Open Scope float_scope.

Lemma Prim2SF_zero : Prim2SF 0 = S754_zero false.
Proof. reflexivity. Qed.

Lemma Prim2SF_two : Prim2SF 2 = S754_finite false 4503599627370496 (-51).
Proof. reflexivity. Qed.

(** [0 < x]: a positive finite float or [+inf]. *)
Lemma positive_cases (x : float) :
  (0 <? x) = true ->
  (exists m e, Prim2SF x = S754_finite false m e) \/ Prim2SF x = S754_infinity false.
Proof.
  rewrite ltb_spec, Prim2SF_zero. unfold SFltb.
  destruct (Prim2SF x) as [s|s| |s m e]; cbn [SFcompare]; try discriminate;
    destruct s; try discriminate; eauto.
Qed.

(** [x == 0.0]: one of the two zeros. *)
Lemma zero_cases (x : float) :
  (x =? 0) = true -> exists s, Prim2SF x = S754_zero s.
Proof.
  rewrite eqb_spec, Prim2SF_zero. unfold SFeqb.
  destruct (Prim2SF x) as [s|s| |s m e]; cbn [SFcompare]; try discriminate;
    try (destruct s; discriminate); eauto.
Qed.

(** [not math.isfinite(x)]: NaN or an infinity. *)
Lemma nonfinite_cases (x : float) :
  is_finite x = false ->
  Prim2SF x = S754_nan \/ exists s, Prim2SF x = S754_infinity s.
Proof.
  unfold is_finite, is_nan, is_infinity.
  rewrite negb_false_iff, orb_true_iff, negb_true_iff, !eqb_spec, abs_spec.
  intros [H|H].
  - left. apply SFeqb_refl_nan. assumption.
  - right. change (Prim2SF infinity) with (S754_infinity false) in H.
    unfold SFeqb in H.
    destruct (Prim2SF x) as [s|s| |s m e]; cbn [SFabs SFcompare] in H;
      try discriminate; eauto.
Qed.

Lemma add_comm (x y : float) : x + y = y + x.
Proof. apply Prim2SF_inj. rewrite !add_spec. apply SFadd_comm. Qed.

Lemma abs_sub_swap (x y : float) : abs (x - y) = abs (y - x).
Proof. apply Prim2SF_inj. rewrite !abs_spec, !sub_spec. apply SFabs_sub_swap. Qed.

Lemma leb_not_ltb (x y : float) : (x <=? y) = true -> (y <? x) = false.
Proof. rewrite leb_spec, ltb_spec. apply SFleb_not_SFltb. Qed.

(** The divisor of line 87 is not zero for two positive prices. *)
Lemma mean_positive_nonzero (x y : float) :
  (0 <? x) = true -> (0 <? y) = true -> ((x + y) / 2 =? 0) = false.
Proof.
  intros Hx Hy.
  rewrite eqb_spec, div_spec, Prim2SF_zero, Prim2SF_two.
  pose proof (Prim2SF_valid (x + y)) as V. rewrite add_spec in *.
  pose proof (Prim2SF_valid x) as Vx. pose proof (Prim2SF_valid y) as Vy.
  destruct (positive_cases x Hx) as [(mx & ex & Ex)|Ex];
    destruct (positive_cases y Hy) as [(my & ey & Ey)|Ey];
    rewrite Ex, Ey in *; try reflexivity.
  apply valid_finite_bounds in Vx.
  apply valid_finite_bounds in Vy.
  pose proof (SFadd_pos_at_least prec emax eq_refl mx my ex ey
                (proj1 Vx) (proj1 Vy)) as A.
  unfold SF64add, SF64div in *.
  destruct (SFadd prec emax (S754_finite false mx ex) (S754_finite false my ey))
    as [s|s| |s m e]; cbn [magnitude_at_least] in A; try tauto.
  - subst s. reflexivity.
  - destruct A as (S & E & K). subst s.
    apply valid_finite_bounds in V.
    apply (at_least_nonzero prec emax false false (SpecFloat.emin prec emax)).
    apply (SFdiv_two_at_least prec emax eq_refl m 4503599627370496 e);
      first [tauto | reflexivity].
Qed.

End Binary64.

Section Binary64Percent.

Local Open Scope float_scope.

(** Two zero prices make the divisor zero. *)
Lemma mean_zero (x y : float) :
  (x =? 0) = true -> (y =? 0) = true -> ((x + y) / 2 =? 0) = true.
Proof.
  intros Hx Hy.
  destruct (zero_cases x Hx) as [sx Ex]. destruct (zero_cases y Hy) as [sy Ey].
  rewrite eqb_spec, div_spec, add_spec, Ex, Ey, Prim2SF_zero, Prim2SF_two.
  destruct sx, sy; reflexivity.
Qed.

(** With a NaN or infinite price the divisor is not zero and the
    percentage is NaN, which is not above the threshold. *)
Lemma nonfinite_percent (x y : float) :
  is_finite x = false \/ is_finite y = false ->
  ((x + y) / 2 =? 0) = false
  /\ (1.5 <? abs (x - y) / ((x + y) / 2) * 100) = false.
Proof.
  intros H.
  rewrite eqb_spec, ltb_spec, mul_spec, !div_spec, abs_spec, sub_spec, add_spec.
  rewrite Prim2SF_zero, Prim2SF_two.
  unfold SF64mul, SF64div, SF64sub, SF64add.
  destruct (Prim2SF (100)) as [sh|sh| |sh mh eh] eqn:E100; try discriminate E100.
  destruct (Prim2SF (1.5)) as [st|st| |st mt et] eqn:E15; try discriminate E15.
  destruct H as [H|H]; apply nonfinite_cases in H; destruct H as [H|[s H]];
    rewrite H; clear H.
  - destruct (Prim2SF y) as [sy|sy| |sy my ey]; split; reflexivity.
  - destruct (Prim2SF y) as [sy|sy| |sy my ey]; try destruct s; try destruct sy;
      split; reflexivity.
  - destruct (Prim2SF x) as [sx|sx| |sx mx ex]; split; reflexivity.
  - destruct (Prim2SF x) as [sx|sx| |sx mx ex]; try destruct s; try destruct sx;
      split; reflexivity.
Qed.

Lemma ltb_asym (x y : float) : (x <? y) = true -> (y <? x) = false.
Proof.
  rewrite !ltb_spec. unfold SFltb. rewrite (SFcompare_swap (Prim2SF x) (Prim2SF y)).
  destruct (SFcompare (Prim2SF x) (Prim2SF y)) as [[ | | ]|]; cbn; congruence.
Qed.

Lemma eqb_not_ltb (x y : float) : (x =? y) = true -> (x <? y) = false.
Proof.
  rewrite eqb_spec, ltb_spec. unfold SFeqb, SFltb.
  destruct (SFcompare (Prim2SF x) (Prim2SF y)) as [[ | | ]|]; congruence.
Qed.

End Binary64Percent.

(** ** Evaluating the loop body *)

Lemma try_pass (body : Py unit) (fr : Frame) :
  try_except body (fun _ => pass) fr = (Ok tt, snd (body fr)).
Proof.
  unfold try_except, pass, ret. destruct (body fr) as [[[]|e] fr']; reflexivity.
Qed.

Lemma percent_of_eq (diff_absolute data1 data2 : float) (fr : Frame) :
  percent_of diff_absolute data1 data2 fr
  = (if ((data1 + data2) / 2 =? 0)%float
     then Raise ZeroDivisionError
     else Ok (diff_absolute / ((data1 + data2) / 2) * 100)%float, fr).
Proof.
  unfold percent_of, bind, py_truediv, raise, ret.
  change (2 =? 0)%float with false. cbv beta iota.
  destruct ((data1 + data2) / 2 =? 0)%float; reflexivity.
Qed.

Lemma for_in_scan_sell_mexc (driver : WebDriver) (xs : list nat)
    (a b c d : float) (o : string) (s : list printed) :
  snd (for_in xs (fun i => v <- read_price driver (xpath_sell_mexc i) ;;
                          set_data_last_sell_mexc v) (mkFrame a b c d o s))
  = mkFrame (scan_value (map (fun i => driver (xpath_sell_mexc i)) xs) a) b c d o s.
Proof.
  revert a. induction xs as [|i xs IH]; intros a; [reflexivity|].
  cbn [for_in map scan_value]. unfold bind at 1 2. unfold read_price, lift.
  destruct (driver (xpath_sell_mexc i)) as [v|e]; [|reflexivity].
  cbn. apply IH.
Qed.

Lemma for_in_scan_sell_lbank (driver : WebDriver) (xs : list nat)
    (a b c d : float) (o : string) (s : list printed) :
  snd (for_in xs (fun i => v <- read_price driver (xpath_sell_lbank i) ;;
                          set_data_last_sell_lbank v) (mkFrame a b c d o s))
  = mkFrame a b (scan_value (map (fun i => driver (xpath_sell_lbank i)) xs) c) d o s.
Proof.
  revert c. induction xs as [|i xs IH]; intros c; [reflexivity|].
  cbn [for_in map scan_value]. unfold bind at 1 2. unfold read_price, lift.
  destruct (driver (xpath_sell_lbank i)) as [v|e]; [|reflexivity].
  cbn. apply IH.
Qed.

Lemma for_in_scan_buy_lbank (driver : WebDriver) (xs : list nat)
    (a b c d : float) (o : string) (s : list printed) :
  snd (for_in xs (fun i => v <- read_price driver (xpath_buy_lbank i) ;;
                          set_data_last_buy_lbank v) (mkFrame a b c d o s))
  = mkFrame a b c (scan_value (map (fun i => driver (xpath_buy_lbank i)) xs) d) o s.
Proof.
  revert d. induction xs as [|i xs IH]; intros d; [reflexivity|].
  cbn [for_in map scan_value]. unfold bind at 1 2. unfold read_price, lift.
  destruct (driver (xpath_buy_lbank i)) as [v|e]; [|reflexivity].
  cbn. apply IH.
Qed.

Lemma bind_ok {A B} (m : Py A) (k : A -> Py B) (fr fr' : Frame) (a : A) :
  m fr = (Ok a, fr') -> bind m k fr = k a fr'.
Proof. intros H. unfold bind. rewrite H. reflexivity. Qed.

Lemma scan_sell_mexc_eq (driver : WebDriver) (a b c d : float) (o : string)
    (s : list printed) :
  scan_sell_mexc driver (mkFrame a b c d o s)
  = (Ok tt, mkFrame (scan_value (map (fun i => driver (xpath_sell_mexc i)) (range 1 20)) a)
              b c d o s).
Proof. unfold scan_sell_mexc. rewrite try_pass, for_in_scan_sell_mexc. reflexivity. Qed.

Lemma read_buy_mexc_eq (driver : WebDriver) (a b c d : float) (o : string)
    (s : list printed) :
  read_buy_mexc driver (mkFrame a b c d o s)
  = (Ok tt, mkFrame a (match driver xpath_buy_mexc with Ok v => v | Raise _ => b end)
              c d o s).
Proof.
  unfold read_buy_mexc. rewrite try_pass. unfold bind, read_price, lift.
  destruct (driver xpath_buy_mexc); reflexivity.
Qed.

Lemma scan_sell_lbank_eq (driver : WebDriver) (a b c d : float) (o : string)
    (s : list printed) :
  scan_sell_lbank driver (mkFrame a b c d o s)
  = (Ok tt, mkFrame a b
              (scan_value (map (fun i => driver (xpath_sell_lbank i)) (range 1 20)) c)
              d o s).
Proof. unfold scan_sell_lbank. rewrite try_pass, for_in_scan_sell_lbank. reflexivity. Qed.

Lemma scan_buy_lbank_eq (driver : WebDriver) (a b c d : float) (o : string)
    (s : list printed) :
  scan_buy_lbank driver (mkFrame a b c d o s)
  = (Ok tt, mkFrame a b c
              (scan_value (map (fun i => driver (xpath_buy_lbank i)) (range 1 20)) d)
              o s).
Proof. unfold scan_buy_lbank. rewrite try_pass, for_in_scan_buy_lbank. reflexivity. Qed.

(** The frame a tick's extraction leaves: no exception, nothing printed, the
    dedup key untouched, each field from its own reads only. *)
Lemma acquire_eq (driver1 driver2 : WebDriver) (fr : Frame) :
  acquire driver1 driver2 fr
  = (Ok tt,
     mkFrame
       (scan_value (map (fun i => driver1 (xpath_sell_mexc i)) (range 1 20)) 0%float)
       (match driver1 xpath_buy_mexc with Ok v => v | Raise _ => 0%float end)
       (scan_value (map (fun i => driver2 (xpath_sell_lbank i)) (range 1 20)) 0%float)
       (scan_value (map (fun i => driver2 (xpath_buy_lbank i)) (range 1 20)) 0%float)
       (old_text fr) (stdout fr)).
Proof.
  destruct fr as [a b c d o s]. unfold acquire.
  rewrite (bind_ok reset_fields _ _ (mkFrame 0 0 0 0 o s) tt) by reflexivity.
  erewrite bind_ok by apply scan_sell_mexc_eq.
  erewrite bind_ok by apply read_buy_mexc_eq.
  erewrite bind_ok by apply scan_sell_lbank_eq.
  apply scan_buy_lbank_eq.
Qed.

Section Alerts.

Variable str_float : float -> string.
Variable format_f : nat -> float -> string.

Lemma emit_if_changed_eq (new_text : string) (now : result string) (fr : Frame) :
  emit_if_changed new_text now fr
  = if String.eqb (old_text fr) new_text then (Ok tt, fr)
    else match now with
         | Ok stamp =>
             (Ok tt, snd (set_old_text new_text
                            (snd (print (PrintText (new_text ++ "Time: " ++ stamp)) fr))))
         | Raise e => (Raise e, fr)
         end.
Proof.
  unfold emit_if_changed, bind, get, lift, pass, ret.
  destruct (String.eqb (old_text fr) new_text); cbn [negb]; [reflexivity|].
  destruct now; reflexivity.
Qed.

(** What one branch does, case by case. *)
Lemma alert_branch_eq (c1 c2 : string) (data1 data2 : float) (now : result string)
    (fr : Frame) :
  alert_branch str_float format_f c1 c2 data1 data2 now fr
  = if ((data1 + data2) / 2 =? 0)%float
    then (Ok tt, snd (print (PrintExn ZeroDivisionError) fr))
    else
      let diff_absolute := abs (data1 - data2) in
      let diff_percent := (diff_absolute / ((data1 + data2) / 2) * 100)%float in
      if (1.5 <? diff_percent)%float then
        let new_text := alert_text str_float format_f c1 c2 data1 data2 diff_absolute diff_percent in
        if String.eqb (old_text fr) new_text then (Ok tt, fr)
        else match now with
             | Ok stamp =>
                 (Ok tt, snd (set_old_text new_text
                                (snd (print (PrintText (new_text ++ "Time: " ++ stamp)) fr))))
             | Raise e => (Ok tt, snd (print (PrintExn e) fr))
             end
      else (Ok tt, fr).
Proof.
  unfold alert_branch, try_except. cbv zeta. unfold bind at 1.
  rewrite percent_of_eq.
  destruct ((data1 + data2) / 2 =? 0)%float; [reflexivity|].
  destruct (1.5 <? abs (data1 - data2) / ((data1 + data2) / 2) * 100)%float;
    [|reflexivity].
  rewrite emit_if_changed_eq.
  destruct (String.eqb (old_text fr) _); [reflexivity|].
  destruct now; reflexivity.
Qed.

Lemma decide_eq (now : result string) (fr : Frame) :
  decide str_float format_f now fr
  = if mexc_buy_branch_taken fr
    then alert_branch str_float format_f Fore_GREEN Fore_RED
           (fst (selected_pair fr)) (snd (selected_pair fr)) now fr
    else alert_branch str_float format_f Fore_RED Fore_GREEN
           (fst (selected_pair fr)) (snd (selected_pair fr)) now fr.
Proof.
  unfold decide, selected_pair, bind, get.
  destruct (mexc_buy_branch_taken fr); reflexivity.
Qed.

End Alerts.

(** ** The scan loops *)

Lemma scan_value_seq (reads : nat -> result float) (len n : nat) (current : float) :
  exists k : nat,
    k <= len
    /\ (forall i, n <= i < n + k -> exists p, reads i = Ok p)
    /\ (k < len -> exists e, reads (n + k) = Raise e)
    /\ match k with
       | O => scan_value (map reads (seq n len)) current = current
       | S k' => reads (n + k') = Ok (scan_value (map reads (seq n len)) current)
       end.
Proof.
  revert n current. induction len as [|len IH]; intros n current.
  - exists 0. cbn. repeat split; lia.
  - cbn [seq map scan_value]. destruct (reads n) as [v|e] eqn:E.
    + destruct (IH (S n) v) as (k & Hk & Hok & Hfail & Hval).
      exists (S k). split; [lia|]. split; [|split].
      * intros i Hi. destruct (Nat.eq_dec i n) as [->|Hne]; [eauto|].
        apply Hok. lia.
      * intros Hlt. replace (n + S k) with (S n + k) by lia. apply Hfail. lia.
      * destruct k as [|k'].
        -- rewrite Hval, Nat.add_0_r. assumption.
        -- replace (n + S k') with (S n + k') by lia. assumption.
    + exists 0. split; [lia|]. split; [|split].
      * intros i Hi. lia.
      * intros _. rewrite Nat.add_0_r. eauto.
      * reflexivity.
Qed.

Lemma scan_value_last (reads : nat -> result float) :
  last_read_before_failure reads (scan_value (map reads (range 1 20)) 0%float).
Proof.
  destruct (scan_value_seq reads 19 1 0%float) as (k & Hk & Hok & Hfail & Hval).
  exists k. split; [assumption|]. split; [|split].
  - intros i Hi. apply Hok. lia.
  - intros Hlt. apply (Hfail Hlt).
  - destruct k as [|k']; assumption.
Qed.

(** Nineteen reads of one XPath: its price, or the sentinel when it fails. *)
Lemma scan_value_same_read (r : result float) :
  scan_value (map (fun _ : nat => r) (range 1 20)) 0%float
  = match r with Ok v => v | Raise _ => 0%float end.
Proof. destruct r; reflexivity. Qed.

(** ** Properties of the loop body *)

Local Open Scope float_scope.

(** C1, as the code has it: the only thing that discards the selected pair
    before the threshold check is a zero divisor [(p1 + p2) / 2]. Then the
    division raises [ZeroDivisionError], the handler prints it, and the
    threshold check, the dedup and the emission are not reached; this is so
    whenever both prices are the 0 sentinel, whatever the two other fields
    are. A pair whose divisor is not zero, a single 0 price included, is not
    discarded: its percentage is computed, and compared with the threshold,
    above which the tick is the dedup gate of lines 93-95 run on the rendered
    text. *)
Theorem only_a_zero_divisor_discards_the_pair
    (str_float : float -> string) (format_f : nat -> float -> string)
    (now : result string) (fr : Frame) :
  let p1 := fst (selected_pair fr) in
  let p2 := snd (selected_pair fr) in
  let diff_percent := abs (p1 - p2) / ((p1 + p2) / 2) * 100 in
  let new_text :=
    alert_text str_float format_f
      (if mexc_buy_branch_taken fr then Fore_GREEN else Fore_RED)
      (if mexc_buy_branch_taken fr then Fore_RED else Fore_GREEN)
      p1 p2 (abs (p1 - p2)) diff_percent in
  ((p1 =? 0) = true -> (p2 =? 0) = true -> ((p1 + p2) / 2 =? 0) = true)
  /\ (((p1 + p2) / 2 =? 0) = true ->
      fst (percent_of (abs (p1 - p2)) p1 p2 fr) = Raise ZeroDivisionError
      /\ decide str_float format_f now fr
         = (Ok tt, snd (print (PrintExn ZeroDivisionError) fr))
      /\ stdout (snd (decide str_float format_f now fr))
         = (stdout fr ++ [PrintExn ZeroDivisionError])%list
      /\ old_text (snd (decide str_float format_f now fr)) = old_text fr)
  /\ (((p1 + p2) / 2 =? 0) = false ->
      percent_of (abs (p1 - p2)) p1 p2 fr = (Ok diff_percent, fr)
      /\ ((1.5 <? diff_percent) = false ->
          decide str_float format_f now fr = (Ok tt, fr))
      /\ ((1.5 <? diff_percent) = true ->
          decide str_float format_f now fr
          = try_except (emit_if_changed new_text now)
              (fun e => print (PrintExn e) ;; pass) fr)).
Proof.
  cbv zeta. split; [apply mean_zero|]. split.
  - intros Z.
    assert (D : decide str_float format_f now fr
                = (Ok tt, snd (print (PrintExn ZeroDivisionError) fr))).
    { rewrite decide_eq.
      destruct (mexc_buy_branch_taken fr); rewrite alert_branch_eq, Z; reflexivity. }
    rewrite percent_of_eq, Z, D. repeat split.
  - intros Z. rewrite percent_of_eq, Z. split; [reflexivity|]. split; intros A.
    + rewrite decide_eq.
      destruct (mexc_buy_branch_taken fr); rewrite alert_branch_eq, Z; cbv zeta;
        rewrite A; reflexivity.
    + rewrite decide_eq.
      destruct (mexc_buy_branch_taken fr); rewrite alert_branch_eq, Z; cbv zeta;
        rewrite A; unfold try_except; rewrite emit_if_changed_eq;
        destruct (String.eqb (old_text fr) _); try reflexivity;
        destruct now; reflexivity.
Qed.

Lemma only_a_zero_divisor_discards_the_pair_witness :
  (fst (selected_pair initial) =? 0) = true
  /\ (snd (selected_pair initial) =? 0) = true
  /\ decide sketch_str_float sketch_format_f (Ok "t"%string) initial
     = (Ok tt, snd (print (PrintExn ZeroDivisionError) initial))
  /\ selected_pair (mkFrame 0x1p-1074 1 0 0 "" []) = (0x1p-1074, 0)
  /\ ((0x1p-1074 + 0) / 2 =? 0) = true
  /\ decide sketch_str_float sketch_format_f (Ok "t"%string)
       (mkFrame 0x1p-1074 1 0 0 "" [])
     = (Ok tt, snd (print (PrintExn ZeroDivisionError) (mkFrame 0x1p-1074 1 0 0 "" []))).
Proof.
  split; [reflexivity|]. split; [reflexivity|]. split.
  - apply (only_a_zero_divisor_discards_the_pair sketch_str_float sketch_format_f
             (Ok "t"%string) initial). reflexivity.
  - split; [reflexivity|]. split; [reflexivity|].
    apply (only_a_zero_divisor_discards_the_pair sketch_str_float sketch_format_f
             (Ok "t"%string) (mkFrame 0x1p-1074 1 0 0 "" [])). reflexivity.
Defined.

(** C1, as stated, fails: a tick in which every MEXC read fails while LBank
    shows 5 and 4 selects the pair (0, 4), computes 200 per cent from it,
    passes the threshold and prints an alert. *)
Lemma venue_down_tick_alerts :
  snd (acquire page_down page_lbank_5_4 initial) = mkFrame 0 0 5 4 "" []
  /\ selected_pair (mkFrame 0 0 5 4 "" []) = (0, 4)
  /\ percent_of (abs (0 - 4)) 0 4 (mkFrame 0 0 5 4 "" [])
     = (Ok 200, mkFrame 0 0 5 4 "" [])
  /\ (1.5 <? 200) = true
  /\ (forall str_float format_f stamp,
        stdout (snd (tick str_float format_f
                       (mkTick page_down page_lbank_5_4 (Ok stamp)) initial))
        = [PrintText (alert_text str_float format_f Fore_RED Fore_GREEN 0 4 4 200
                        ++ "Time: " ++ stamp)]).
Proof.
  repeat split; try reflexivity.
Qed.

(** C2, as the code has it: line 81 takes the first branch (buy on MEXC,
    sell on LBank) exactly when its absolute difference is strictly the
    smaller one; when the other is smaller, and when the two are equal, the
    [else] branch (sell on MEXC, buy on LBank) runs. *)
Theorem direction_selection
    (str_float : float -> string) (format_f : nat -> float -> string)
    (now : result string) (fr : Frame) :
  let mex_buy_and_lbnak_sell := abs (data_last_buy_mexc fr - data_last_sell_lbank fr) in
  let lbank_buy_and_mex_sell := abs (data_last_sell_mexc fr - data_last_buy_lbank fr) in
  ((mex_buy_and_lbnak_sell <? lbank_buy_and_mex_sell) = true ->
     selected_pair fr = (data_last_buy_mexc fr, data_last_sell_lbank fr)
     /\ decide str_float format_f now fr
        = alert_branch str_float format_f Fore_GREEN Fore_RED
            (data_last_buy_mexc fr) (data_last_sell_lbank fr) now fr)
  /\ ((lbank_buy_and_mex_sell <? mex_buy_and_lbnak_sell) = true ->
     selected_pair fr = (data_last_sell_mexc fr, data_last_buy_lbank fr)
     /\ decide str_float format_f now fr
        = alert_branch str_float format_f Fore_RED Fore_GREEN
            (data_last_sell_mexc fr) (data_last_buy_lbank fr) now fr)
  /\ ((mex_buy_and_lbnak_sell =? lbank_buy_and_mex_sell) = true ->
     selected_pair fr = (data_last_sell_mexc fr, data_last_buy_lbank fr)
     /\ decide str_float format_f now fr
        = alert_branch str_float format_f Fore_RED Fore_GREEN
            (data_last_sell_mexc fr) (data_last_buy_lbank fr) now fr).
Proof.
  cbv zeta.
  assert (T : mexc_buy_branch_taken fr = true ->
              selected_pair fr = (data_last_buy_mexc fr, data_last_sell_lbank fr)
              /\ decide str_float format_f now fr
                 = alert_branch str_float format_f Fore_GREEN Fore_RED
                     (data_last_buy_mexc fr) (data_last_sell_lbank fr) now fr).
  { intros H. rewrite decide_eq. unfold selected_pair. rewrite H. split; reflexivity. }
  assert (F : mexc_buy_branch_taken fr = false ->
              selected_pair fr = (data_last_sell_mexc fr, data_last_buy_lbank fr)
              /\ decide str_float format_f now fr
                 = alert_branch str_float format_f Fore_RED Fore_GREEN
                     (data_last_sell_mexc fr) (data_last_buy_lbank fr) now fr).
  { intros H. rewrite decide_eq. unfold selected_pair. rewrite H. split; reflexivity. }
  split; [|split]; intros H.
  - apply T. exact H.
  - apply F. unfold mexc_buy_branch_taken. apply ltb_asym. exact H.
  - apply F. unfold mexc_buy_branch_taken. apply eqb_not_ltb. exact H.
Qed.

(** C2, as stated, fails on a tie: with asks 101 and 102 and bids 100 and 99
    both differences are 2, and the pair of the second direction is used. *)
Lemma tie_takes_second_direction :
  abs (100 - 102) = 2
  /\ abs (101 - 99) = 2
  /\ mexc_buy_branch_taken (mkFrame 101 100 102 99 "" []) = false
  /\ selected_pair (mkFrame 101 100 102 99 "" []) = (101, 99).
Proof. repeat split. Qed.

(** C3: for two positive prices the percentage is
    [|p1 - p2| / ((p1 + p2) / 2) * 100] in binary64 arithmetic, no exception
    is raised, and swapping the two prices gives the same result. *)
Theorem percent_formula_symmetric (p1 p2 : float) (fr : Frame) :
  (0 <? p1) = true -> (0 <? p2) = true ->
  percent_of (abs (p1 - p2)) p1 p2 fr
  = (Ok (abs (p1 - p2) / ((p1 + p2) / 2) * 100), fr)
  /\ percent_of (abs (p2 - p1)) p2 p1 fr = percent_of (abs (p1 - p2)) p1 p2 fr.
Proof.
  intros H1 H2. rewrite !percent_of_eq.
  rewrite (mean_positive_nonzero p1 p2 H1 H2).
  rewrite (add_comm p2 p1), (abs_sub_swap p2 p1).
  rewrite (mean_positive_nonzero p1 p2 H1 H2). split; reflexivity.
Qed.

Lemma percent_formula_symmetric_witness :
  (0 <? 98) = true
  /\ (0 <? 103) = true
  /\ percent_of (abs (98 - 103)) 98 103 initial
     = (Ok (abs (98 - 103) / ((98 + 103) / 2) * 100), initial)
  /\ percent_of (abs (103 - 98)) 103 98 initial
     = percent_of (abs (98 - 103)) 98 103 initial.
Proof.
  split; [reflexivity|]. split; [reflexivity|].
  apply (percent_formula_symmetric 98 103 initial); reflexivity.
Defined.

(** C4: a candidate whose percentage is at most 1.5 leaves the frame as it
    was, console and [old_text] included; the tick changes anything only
    when the percentage is above 1.5. *)
Theorem below_threshold_dropped
    (str_float : float -> string) (format_f : nat -> float -> string)
    (now : result string) (fr : Frame) (diff_percent : float) :
  fst (percent_of (abs (fst (selected_pair fr) - snd (selected_pair fr)))
         (fst (selected_pair fr)) (snd (selected_pair fr)) fr) = Ok diff_percent ->
  ((diff_percent <=? 1.5) = true -> decide str_float format_f now fr = (Ok tt, fr))
  /\ (decide str_float format_f now fr <> (Ok tt, fr) -> (1.5 <? diff_percent) = true).
Proof.
  rewrite percent_of_eq. cbn [fst].
  set (p1 := fst (selected_pair fr)). set (p2 := snd (selected_pair fr)).
  destruct ((p1 + p2) / 2 =? 0) eqn:Z; [discriminate|].
  intros E. injection E as E.
  assert (D : (1.5 <? diff_percent) = false ->
              decide str_float format_f now fr = (Ok tt, fr)).
  { intros L. rewrite decide_eq. fold p1 p2.
    destruct (mexc_buy_branch_taken fr); rewrite alert_branch_eq, Z; cbv zeta;
      rewrite E, L; reflexivity. }
  split.
  - intros L. apply D. apply leb_not_ltb. exact L.
  - intros N. destruct (1.5 <? diff_percent); [reflexivity|].
    exfalso. apply N. apply D. reflexivity.
Qed.

Lemma below_threshold_dropped_witness :
  fst (percent_of
         (abs (fst (selected_pair (mkFrame 100 99 101.5 100.5 "" []))
               - snd (selected_pair (mkFrame 100 99 101.5 100.5 "" []))))
         (fst (selected_pair (mkFrame 100 99 101.5 100.5 "" [])))
         (snd (selected_pair (mkFrame 100 99 101.5 100.5 "" [])))
         (mkFrame 100 99 101.5 100.5 "" []))
  = Ok (0.5 / ((100 + 100.5) / 2) * 100)
  /\ (0.5 / ((100 + 100.5) / 2) * 100 <=? 1.5) = true
  /\ decide sketch_str_float sketch_format_f (Ok "t"%string)
       (mkFrame 100 99 101.5 100.5 "" [])
     = (Ok tt, mkFrame 100 99 101.5 100.5 "" []).
Proof.
  split; [reflexivity|]. split; [reflexivity|].
  apply (below_threshold_dropped sketch_str_float sketch_format_f (Ok "t"%string)
           (mkFrame 100 99 101.5 100.5 "" []) (0.5 / ((100 + 100.5) / 2) * 100));
    reflexivity.
Defined.

(** C5: the same alert text on two consecutive above-threshold ticks is
    printed once. The key stored and compared is the text without the
    timestamp, which is appended only in the printed line: the second tick,
    whatever its timestamp, prints nothing and leaves the frame as the first
    left it. Stated for the gate of lines 93-95 and for the whole branch. *)
Theorem duplicate_alert_suppressed
    (str_float : float -> string) (format_f : nat -> float -> string)
    (c1 c2 : string) (data1 data2 : float) (stamp1 stamp2 new_text : string)
    (fr : Frame) :
  ((data1 + data2) / 2 =? 0) = false ->
  (1.5 <? abs (data1 - data2) / ((data1 + data2) / 2) * 100) = true ->
  new_text = alert_text str_float format_f c1 c2 data1 data2 (abs (data1 - data2))
               (abs (data1 - data2) / ((data1 + data2) / 2) * 100) ->
  String.eqb (old_text fr) new_text = false ->
  (let fr1 := snd (emit_if_changed new_text (Ok stamp1) fr) in
   stdout fr1 = (stdout fr ++ [PrintText (new_text ++ "Time: " ++ stamp1)])%list
   /\ old_text fr1 = new_text
   /\ emit_if_changed new_text (Ok stamp2) fr1 = (Ok tt, fr1))
  /\ (let fr1 := snd (alert_branch str_float format_f c1 c2 data1 data2 (Ok stamp1) fr) in
      stdout fr1 = (stdout fr ++ [PrintText (new_text ++ "Time: " ++ stamp1)])%list
      /\ old_text fr1 = new_text
      /\ alert_branch str_float format_f c1 c2 data1 data2 (Ok stamp2) fr1
         = (Ok tt, fr1)).
Proof.
  intros Z A T N. cbv zeta. split.
  - rewrite emit_if_changed_eq, N. cbn [snd set_old_text print stdout old_text].
    repeat split. rewrite emit_if_changed_eq. cbn [old_text].
    rewrite String.eqb_refl. reflexivity.
  - rewrite alert_branch_eq, Z. cbv zeta. rewrite A, <- T, N.
    cbn [snd set_old_text print stdout old_text].
    repeat split. rewrite alert_branch_eq, Z. cbv zeta. rewrite A, <- T.
    cbn [old_text]. rewrite String.eqb_refl. reflexivity.
Qed.

Lemma duplicate_alert_suppressed_witness :
  ((95 + 105) / 2 =? 0) = false
  /\ (1.5 <? abs (95 - 105) / ((95 + 105) / 2) * 100) = true
  /\ String.eqb (old_text initial)
       (alert_text sketch_str_float sketch_format_f Fore_GREEN Fore_RED 95 105
          (abs (95 - 105)) (abs (95 - 105) / ((95 + 105) / 2) * 100)) = false
  /\ alert_branch sketch_str_float sketch_format_f Fore_GREEN Fore_RED 95 105
       (Ok "12:00:01"%string)
       (snd (alert_branch sketch_str_float sketch_format_f Fore_GREEN Fore_RED 95 105
               (Ok "12:00:00"%string) initial))
     = (Ok tt,
        snd (alert_branch sketch_str_float sketch_format_f Fore_GREEN Fore_RED 95 105
               (Ok "12:00:00"%string) initial)).
Proof.
  split; [reflexivity|]. split; [reflexivity|]. split; [reflexivity|].
  apply (duplicate_alert_suppressed sketch_str_float sketch_format_f
           Fore_GREEN Fore_RED 95 105 "12:00:00"%string "12:00:01"%string
           (alert_text sketch_str_float sketch_format_f Fore_GREEN Fore_RED 95 105
              (abs (95 - 105)) (abs (95 - 105) / ((95 + 105) / 2) * 100))
           initial); reflexivity.
Defined.

(** C6: with asks 100 (MEXC) and 103 (LBank) and bids 98 (MEXC) and 100
    (LBank) the two differences are 5 and 0, the second direction is
    selected, its percentage is 0 and the tick prints nothing and keeps
    [old_text], although the first direction's percentage is above 1.5. *)
Theorem scenario_three
    (str_float : float -> string) (format_f : nat -> float -> string)
    (now : result string) (old : string) (out : list printed) :
  abs (98 - 103) = 5
  /\ abs (100 - 100) = 0
  /\ mexc_buy_branch_taken (mkFrame 100 98 103 100 old out) = false
  /\ selected_pair (mkFrame 100 98 103 100 old out) = (100, 100)
  /\ percent_of (abs (100 - 100)) 100 100 (mkFrame 100 98 103 100 old out)
     = (Ok 0, mkFrame 100 98 103 100 old out)
  /\ decide str_float format_f now (mkFrame 100 98 103 100 old out)
     = (Ok tt, mkFrame 100 98 103 100 old out)
  /\ tick str_float format_f (mkTick page_mexc_100_98 page_lbank_103_100 now)
       (mkFrame 0 0 0 0 old out)
     = (Ok tt, mkFrame 100 98 103 100 old out)
  /\ (1.5 <? abs (98 - 103) / ((98 + 103) / 2) * 100) = true.
Proof.
  repeat split; reflexivity.
Qed.

(** C7: for two strictly positive prices the divisor [(p1 + p2) / 2] is not
    zero, so neither division of line 87 raises [ZeroDivisionError]. *)
Theorem mean_of_positive_prices_nonzero (p1 p2 : float) :
  (0 <? p1) = true -> (0 <? p2) = true ->
  ((p1 + p2) / 2 =? 0) = false
  /\ (forall fr, py_truediv (p1 + p2) 2 fr = (Ok ((p1 + p2) / 2), fr))
  /\ (forall x fr, py_truediv x ((p1 + p2) / 2) fr = (Ok (x / ((p1 + p2) / 2)), fr)).
Proof.
  intros H1 H2. pose proof (mean_positive_nonzero p1 p2 H1 H2) as Z.
  split; [exact Z|]. split.
  - intros fr. reflexivity.
  - intros x fr. unfold py_truediv. rewrite Z. reflexivity.
Qed.

Lemma mean_of_positive_prices_nonzero_witness :
  (0 <? 0x1p-1074) = true
  /\ (0 <? 0x1p-1074) = true
  /\ ((0x1p-1074 + 0x1p-1074) / 2 =? 0) = false.
Proof.
  split; [reflexivity|]. split; [reflexivity|].
  apply (mean_of_positive_prices_nonzero 0x1p-1074 0x1p-1074); reflexivity.
Defined.

(** C8: when a price of the selected direction is NaN or infinite the tick
    leaves the frame as it was: no alert, no diagnostic, [old_text] kept. *)
Theorem nonfinite_price_silent
    (str_float : float -> string) (format_f : nat -> float -> string)
    (now : result string) (fr : Frame) :
  is_finite (fst (selected_pair fr)) = false
  \/ is_finite (snd (selected_pair fr)) = false ->
  decide str_float format_f now fr = (Ok tt, fr).
Proof.
  intros H. destruct (nonfinite_percent _ _ H) as [Z L].
  rewrite decide_eq.
  destruct (mexc_buy_branch_taken fr); rewrite alert_branch_eq, Z; cbv zeta;
    rewrite L; reflexivity.
Qed.

Lemma nonfinite_price_silent_witness :
  (is_finite (fst (selected_pair (mkFrame nan 99 101 100 "" []))) = false
   \/ is_finite (snd (selected_pair (mkFrame nan 99 101 100 "" []))) = false)
  /\ decide sketch_str_float sketch_format_f (Ok "t"%string)
       (mkFrame nan 99 101 100 "" [])
     = (Ok tt, mkFrame nan 99 101 100 "" []).
Proof.
  split; [left; reflexivity|].
  apply (nonfinite_price_silent sketch_str_float sketch_format_f (Ok "t"%string)
           (mkFrame nan 99 101 100 "" [])).
  left. reflexivity.
Defined.

Lemma decide_ok (str_float : float -> string) (format_f : nat -> float -> string)
    (now : result string) (fr : Frame) :
  fst (decide str_float format_f now fr) = Ok tt.
Proof.
  rewrite decide_eq.
  destruct (mexc_buy_branch_taken fr); rewrite alert_branch_eq; cbv zeta;
    repeat match goal with
           | |- context [if ?b then _ else _] => destruct b
           | |- context [match ?r with Ok _ => _ | Raise _ => _ end] => destruct r
           end; reflexivity.
Qed.

Lemma tick_eq (str_float : float -> string) (format_f : nat -> float -> string)
    (t : Tick) (fr : Frame) :
  tick str_float format_f t fr
  = decide str_float format_f (now t) (snd (acquire (page1 t) (page2 t) fr)).
Proof.
  unfold tick. erewrite bind_ok by apply acquire_eq.
  rewrite acquire_eq. reflexivity.
Qed.

Lemma tick_ok (str_float : float -> string) (format_f : nat -> float -> string)
    (t : Tick) (fr : Frame) :
  tick str_float format_f t fr = (Ok tt, snd (tick str_float format_f t fr)).
Proof.
  rewrite tick_eq.
  pose proof (decide_ok str_float format_f (now t)
                (snd (acquire (page1 t) (page2 t) fr))) as H.
  destruct (decide str_float format_f (now t) _) as [r fr']. cbn [fst] in H.
  subst r. reflexivity.
Qed.

Lemma run_cons (str_float : float -> string) (format_f : nat -> float -> string)
    (t : Tick) (ts : list Tick) (fr : Frame) :
  run str_float format_f (t :: ts) fr
  = run str_float format_f ts (snd (tick str_float format_f t fr)).
Proof. cbn [run]. unfold bind. rewrite tick_ok. reflexivity. Qed.

(** C9: no exception leaves an iteration. The extraction never raises and
    prints nothing, each field comes from its own reads whatever the other
    reads do; an exception of the computation or of the alert construction
    is printed and the tick ends with [old_text] unchanged; every tick
    returns normally, so the loop runs every iteration it is given. *)
Theorem loop_survives_bad_reads
    (str_float : float -> string) (format_f : nat -> float -> string) :
  (forall driver1 driver2 fr,
      acquire driver1 driver2 fr
      = (Ok tt,
         mkFrame
           (scan_value (map (fun i => driver1 (xpath_sell_mexc i)) (range 1 20)) 0)
           (match driver1 xpath_buy_mexc with Ok v => v | Raise _ => 0 end)
           (scan_value (map (fun i => driver2 (xpath_sell_lbank i)) (range 1 20)) 0)
           (scan_value (map (fun i => driver2 (xpath_buy_lbank i)) (range 1 20)) 0)
           (old_text fr) (stdout fr)))
  /\ (forall now fr e,
         fst (percent_of (abs (fst (selected_pair fr) - snd (selected_pair fr)))
                (fst (selected_pair fr)) (snd (selected_pair fr)) fr) = Raise e ->
         decide str_float format_f now fr = (Ok tt, snd (print (PrintExn e) fr)))
  /\ (forall c1 c2 data1 data2 e fr,
         ((data1 + data2) / 2 =? 0) = false ->
         (1.5 <? abs (data1 - data2) / ((data1 + data2) / 2) * 100) = true ->
         String.eqb (old_text fr)
           (alert_text str_float format_f c1 c2 data1 data2 (abs (data1 - data2))
              (abs (data1 - data2) / ((data1 + data2) / 2) * 100)) = false ->
         alert_branch str_float format_f c1 c2 data1 data2 (Raise e) fr
         = (Ok tt, snd (print (PrintExn e) fr)))
  /\ (forall t fr, fst (tick str_float format_f t fr) = Ok tt)
  /\ (forall ts fr, fst (run str_float format_f ts fr) = Ok tt)
  /\ (forall ts1 ts2 fr,
         run str_float format_f (ts1 ++ ts2) fr
         = run str_float format_f ts2 (snd (run str_float format_f ts1 fr))).
Proof.
  split; [apply acquire_eq|]. split; [|split; [|split; [|split]]].
  - intros now fr e. rewrite percent_of_eq. cbn [fst].
    destruct ((fst (selected_pair fr) + snd (selected_pair fr)) / 2 =? 0) eqn:Z;
      [|discriminate].
    intros E. injection E as <-. rewrite decide_eq.
    destruct (mexc_buy_branch_taken fr); rewrite alert_branch_eq, Z; reflexivity.
  - intros c1 c2 data1 data2 e fr Z A N.
    rewrite alert_branch_eq, Z. cbv zeta. rewrite A, N. reflexivity.
  - intros t fr. rewrite tick_ok. reflexivity.
  - induction ts as [|t ts IH]; intros fr; [reflexivity|].
    rewrite run_cons. apply IH.
  - induction ts1 as [|t ts1 IH]; intros ts2 fr; [reflexivity|].
    cbn [app]. rewrite !run_cons. apply IH.
Qed.

Lemma distinct_on_rows (xpath_of : nat -> string) :
  forallb (fun i => forallb (fun j => implb (String.eqb (xpath_of i) (xpath_of j))
                                        (Nat.eqb i j)) (range 1 20)) (range 1 20)
  = true ->
  forall i j, (1 <= i <= 19)%nat -> (1 <= j <= 19)%nat ->
              xpath_of i = xpath_of j -> i = j.
Proof.
  intros B i j Hi Hj E. rewrite forallb_forall in B.
  assert (Ii : In i (range 1 20)) by (apply in_seq; cbn; lia).
  assert (Ij : In j (range 1 20)) by (apply in_seq; cbn; lia).
  specialize (B i Ii). rewrite forallb_forall in B. specialize (B j Ij).
  rewrite E, String.eqb_refl in B. apply Nat.eqb_eq. exact B.
Qed.

(** C10: after the extraction each scanned ask field holds the price of the
    last row read before the first failing read of its scan over rows 1..19
    (0 when row 1 fails), not the first row: the scans read nineteen
    different XPaths, [div[i]] on MEXC and [li[i]] on LBank, and with three
    parsing rows the field is the third row's price. The LBank bid scan reads
    the same XPath [li[1]] at every index, so its field is the price of
    row 1, or 0 when that read fails. *)
Theorem scanned_fields (driver1 driver2 : WebDriver) (fr : Frame) :
  let ask_mexc := fun i : nat =>
    (mexc_orderbook ++ "/div[2]/div[2]/div[1]/div[1]/div[" ++ str_nat i
       ++ "]/div[1]/span")%string in
  let ask_lbank := fun i : nat =>
    (lbank_orderbook ++ "/div[2]/div[1]/ul/li[" ++ str_nat i ++ "]/div/span")%string in
  let bid_lbank := (lbank_orderbook ++ "/div[2]/div[3]/ul/li[1]/div/span")%string in
  last_read_before_failure (fun i => driver1 (ask_mexc i))
    (data_last_sell_mexc (snd (acquire driver1 driver2 fr)))
  /\ last_read_before_failure (fun i => driver2 (ask_lbank i))
       (data_last_sell_lbank (snd (acquire driver1 driver2 fr)))
  /\ last_read_before_failure (fun _ => driver2 bid_lbank)
       (data_last_buy_lbank (snd (acquire driver1 driver2 fr)))
  /\ data_last_buy_lbank (snd (acquire driver1 driver2 fr))
     = match driver2 bid_lbank with Ok v => v | Raise _ => 0 end
  /\ (forall i, xpath_sell_mexc i = ask_mexc i)
  /\ (forall i, xpath_sell_lbank i = ask_lbank i)
  /\ (forall i, xpath_buy_lbank i = bid_lbank)
  /\ (str_nat 1 = "1"%string /\ str_nat 9 = "9"%string /\ str_nat 10 = "10"%string
      /\ str_nat 19 = "19"%string)
  /\ (forall i j, (1 <= i <= 19)%nat -> (1 <= j <= 19)%nat ->
                  ask_mexc i = ask_mexc j -> i = j)
  /\ (forall i j, (1 <= i <= 19)%nat -> (1 <= j <= 19)%nat ->
                  ask_lbank i = ask_lbank j -> i = j)
  /\ data_last_sell_mexc (snd (acquire page_mexc_three_asks page_down initial)) = 102
  /\ data_last_sell_lbank (snd (acquire page_down page_lbank_three_asks initial)) = 105.
Proof.
  cbv zeta. rewrite acquire_eq.
  cbn [snd data_last_sell_mexc data_last_sell_lbank data_last_buy_lbank].
  split; [apply (scan_value_last (fun i => driver1 (xpath_sell_mexc i)))|].
  split; [apply (scan_value_last (fun i => driver2 (xpath_sell_lbank i)))|].
  split; [apply (scan_value_last (fun i => driver2 (xpath_buy_lbank i)))|].
  split; [apply (scan_value_same_read (driver2 (xpath_buy_lbank 1)))|].
  split; [reflexivity|]. split; [reflexivity|]. split; [reflexivity|].
  split; [repeat split|].
  split; [apply (distinct_on_rows xpath_sell_mexc); vm_compute; reflexivity|].
  split; [apply (distinct_on_rows xpath_sell_lbank); vm_compute; reflexivity|].
  split; reflexivity.
Qed.

(** ** Further properties of the loop body *)

Lemma old_text_acquire (driver1 driver2 : WebDriver) (fr : Frame) :
  old_text (snd (acquire driver1 driver2 fr)) = old_text fr
  /\ stdout (snd (acquire driver1 driver2 fr)) = stdout fr.
Proof. rewrite acquire_eq. split; reflexivity. Qed.

(** What one branch leaves, as a case list. *)
Lemma alert_branch_cases
    (str_float : float -> string) (format_f : nat -> float -> string)
    (c1 c2 : string) (data1 data2 : float) (now : result string) (fr : Frame) :
  alert_branch str_float format_f c1 c2 data1 data2 now fr = (Ok tt, fr)
  \/ alert_branch str_float format_f c1 c2 data1 data2 now fr
     = (Ok tt, snd (print (PrintExn ZeroDivisionError) fr))
  \/ (exists e, now = Raise e
        /\ alert_branch str_float format_f c1 c2 data1 data2 now fr
           = (Ok tt, snd (print (PrintExn e) fr)))
  \/ (exists stamp new_text, now = Ok stamp
        /\ String.eqb (old_text fr) new_text = false
        /\ alert_branch str_float format_f c1 c2 data1 data2 now fr
           = (Ok tt, snd (set_old_text new_text
                            (snd (print (PrintText (new_text ++ "Time: " ++ stamp)) fr))))).
Proof.
  rewrite alert_branch_eq.
  destruct ((data1 + data2) / 2 =? 0); [right; left; reflexivity|]. cbv zeta.
  destruct (1.5 <? abs (data1 - data2) / ((data1 + data2) / 2) * 100);
    [|left; reflexivity].
  destruct (String.eqb (old_text fr) _) eqn:E; [left; reflexivity|].
  destruct now as [stamp|e].
  - right; right; right. exists stamp. eexists. repeat split. exact E.
  - right; right; left. exists e. split; reflexivity.
Qed.

Lemma tick_cases
    (str_float : float -> string) (format_f : nat -> float -> string)
    (t : Tick) (fr : Frame) :
  let q := snd (acquire (page1 t) (page2 t) fr) in
  tick str_float format_f t fr = (Ok tt, q)
  \/ tick str_float format_f t fr = (Ok tt, snd (print (PrintExn ZeroDivisionError) q))
  \/ (exists e, now t = Raise e
        /\ tick str_float format_f t fr = (Ok tt, snd (print (PrintExn e) q)))
  \/ (exists stamp new_text, now t = Ok stamp
        /\ String.eqb (old_text q) new_text = false
        /\ tick str_float format_f t fr
           = (Ok tt, snd (set_old_text new_text
                            (snd (print (PrintText (new_text ++ "Time: " ++ stamp)) q))))).
Proof.
  cbv zeta. rewrite tick_eq, decide_eq.
  destruct (mexc_buy_branch_taken _); apply alert_branch_cases.
Qed.

(** X1: the gate of lines 93-95 remembers only the last printed text. After
    a text was printed, the same text is suppressed, a different text is
    printed and becomes the key, and the first text is then printed again. *)
Theorem gate_remembers_last_text_only
    (text text' stamp1 stamp2 stamp3 stamp4 : string) (fr : Frame) :
  String.eqb (old_text fr) text = false ->
  String.eqb text text' = false ->
  let fr1 := snd (emit_if_changed text (Ok stamp1) fr) in
  let fr2 := snd (emit_if_changed text (Ok stamp2) fr1) in
  let fr3 := snd (emit_if_changed text' (Ok stamp3) fr2) in
  let fr4 := snd (emit_if_changed text (Ok stamp4) fr3) in
  fr2 = fr1
  /\ stdout fr3
     = (stdout fr ++ [PrintText (text ++ "Time: " ++ stamp1);
                      PrintText (text' ++ "Time: " ++ stamp3)])%list
  /\ old_text fr3 = text'
  /\ stdout fr4
     = (stdout fr ++ [PrintText (text ++ "Time: " ++ stamp1);
                      PrintText (text' ++ "Time: " ++ stamp3);
                      PrintText (text ++ "Time: " ++ stamp4)])%list
  /\ old_text fr4 = text.
Proof.
  intros N D. cbv zeta.
  assert (D' : String.eqb text' text = false) by (rewrite String.eqb_sym; exact D).
  rewrite !emit_if_changed_eq.
  rewrite N. cbn [snd set_old_text print stdout old_text].
  rewrite String.eqb_refl. cbn [snd set_old_text print stdout old_text].
  rewrite D. cbn [snd set_old_text print stdout old_text].
  rewrite D'. cbn [snd set_old_text print stdout old_text].
  rewrite <- !app_assoc. repeat split.
Qed.

Lemma gate_remembers_last_text_only_witness :
  String.eqb (old_text initial) "A" = false
  /\ String.eqb "A" "B" = false
  /\ stdout (snd (emit_if_changed "A" (Ok "4")
                    (snd (emit_if_changed "B" (Ok "3")
                            (snd (emit_if_changed "A" (Ok "2")
                                    (snd (emit_if_changed "A" (Ok "1") initial))))))))
     = (stdout initial ++ [PrintText ("A" ++ "Time: " ++ "1");
                           PrintText ("B" ++ "Time: " ++ "3");
                           PrintText ("A" ++ "Time: " ++ "4")])%list.
Proof.
  split; [reflexivity|]. split; [reflexivity|].
  apply (gate_remembers_last_text_only "A" "B" "1" "2" "3" "4" initial); reflexivity.
Defined.

Lemma directions_differ_in_text
    (str_float : float -> string) (format_f : nat -> float -> string)
    (a b c d a' b' c' d' : float) :
  String.eqb (alert_text str_float format_f Fore_GREEN Fore_RED a b c d)
    (alert_text str_float format_f Fore_RED Fore_GREEN a' b' c' d') = false.
Proof. reflexivity. Qed.

Lemma alert_text_not_empty
    (str_float : float -> string) (format_f : nat -> float -> string)
    (c1 c2 : string) (a b c d : float) :
  String.eqb "" (alert_text str_float format_f c1 c2 a b c d) = false.
Proof. reflexivity. Qed.

(** X2: the colour codes make the texts of the two directions different
    whatever the prices are, so an above-threshold candidate of one direction
    is printed when the last alert was of the other direction. *)
Theorem direction_change_is_printed
    (str_float : float -> string) (format_f : nat -> float -> string)
    (a b c d data1 data2 : float) (stamp : string) (fr : Frame) :
  old_text fr = alert_text str_float format_f Fore_GREEN Fore_RED a b c d ->
  ((data1 + data2) / 2 =? 0) = false ->
  (1.5 <? abs (data1 - data2) / ((data1 + data2) / 2) * 100) = true ->
  let new_text :=
    alert_text str_float format_f Fore_RED Fore_GREEN data1 data2 (abs (data1 - data2))
      (abs (data1 - data2) / ((data1 + data2) / 2) * 100) in
  let fr' := snd (alert_branch str_float format_f Fore_RED Fore_GREEN data1 data2
                    (Ok stamp) fr) in
  stdout fr' = (stdout fr ++ [PrintText (new_text ++ "Time: " ++ stamp)])%list
  /\ old_text fr' = new_text.
Proof.
  intros O Z A. cbv zeta. rewrite alert_branch_eq, Z. cbv zeta.
  rewrite A, O, directions_differ_in_text. split; reflexivity.
Qed.

Lemma direction_change_is_printed_witness :
  old_text (mkFrame 95 95 105 105
              (alert_text sketch_str_float sketch_format_f Fore_GREEN Fore_RED 1 2 3 4) [])
  = alert_text sketch_str_float sketch_format_f Fore_GREEN Fore_RED 1 2 3 4
  /\ ((95 + 105) / 2 =? 0) = false
  /\ (1.5 <? abs (95 - 105) / ((95 + 105) / 2) * 100) = true
  /\ old_text
       (snd (alert_branch sketch_str_float sketch_format_f Fore_RED Fore_GREEN 95 105
               (Ok "t"%string)
               (mkFrame 95 95 105 105
                  (alert_text sketch_str_float sketch_format_f Fore_GREEN Fore_RED 1 2 3 4)
                  [])))
     = alert_text sketch_str_float sketch_format_f Fore_RED Fore_GREEN 95 105
         (abs (95 - 105)) (abs (95 - 105) / ((95 + 105) / 2) * 100).
Proof.
  split; [reflexivity|]. split; [reflexivity|]. split; [reflexivity|].
  apply (direction_change_is_printed sketch_str_float sketch_format_f 1 2 3 4 95 105
           "t"%string
           (mkFrame 95 95 105 105
              (alert_text sketch_str_float sketch_format_f Fore_GREEN Fore_RED 1 2 3 4)
              [])); reflexivity.
Defined.

(** X3: while no alert was printed yet ([old_text] is still the empty string
    of line 25), every above-threshold candidate is printed, because an alert
    text is never empty; the key is not empty afterwards. *)
Theorem first_alert_is_printed
    (str_float : float -> string) (format_f : nat -> float -> string)
    (stamp : string) (fr : Frame) (diff_percent : float) :
  old_text fr = ""%string ->
  fst (percent_of (abs (fst (selected_pair fr) - snd (selected_pair fr)))
         (fst (selected_pair fr)) (snd (selected_pair fr)) fr) = Ok diff_percent ->
  (1.5 <? diff_percent) = true ->
  let fr' := snd (decide str_float format_f (Ok stamp) fr) in
  stdout fr' = (stdout fr ++ [PrintText (old_text fr' ++ "Time: " ++ stamp)])%list
  /\ String.eqb "" (old_text fr') = false.
Proof.
  intros O. rewrite percent_of_eq. cbn [fst].
  set (p1 := fst (selected_pair fr)). set (p2 := snd (selected_pair fr)).
  destruct ((p1 + p2) / 2 =? 0) eqn:Z; [discriminate|].
  intros E A. injection E as E. cbv zeta. rewrite decide_eq. fold p1 p2.
  destruct (mexc_buy_branch_taken fr); rewrite alert_branch_eq, Z; cbv zeta;
    rewrite E, A, O, alert_text_not_empty; split; reflexivity.
Qed.

Lemma first_alert_is_printed_witness :
  old_text (mkFrame 0 0 5 4 "" []) = ""%string
  /\ fst (percent_of
            (abs (fst (selected_pair (mkFrame 0 0 5 4 "" []))
                  - snd (selected_pair (mkFrame 0 0 5 4 "" []))))
            (fst (selected_pair (mkFrame 0 0 5 4 "" [])))
            (snd (selected_pair (mkFrame 0 0 5 4 "" [])))
            (mkFrame 0 0 5 4 "" [])) = Ok 200
  /\ (1.5 <? 200) = true
  /\ String.eqb ""
       (old_text (snd (decide sketch_str_float sketch_format_f (Ok "t"%string)
                         (mkFrame 0 0 5 4 "" [])))) = false.
Proof.
  split; [reflexivity|]. split; [reflexivity|]. split; [reflexivity|].
  apply (first_alert_is_printed sketch_str_float sketch_format_f "t"%string
           (mkFrame 0 0 5 4 "" []) 200); reflexivity.
Defined.

Lemma last_alert_app_exn (out : list printed) (e : exn) :
  last_alert (out ++ [PrintExn e]) = last_alert out.
Proof.
  induction out as [|[s|e'] out IH]; cbn [app last_alert]; [reflexivity| |];
    rewrite IH; reflexivity.
Qed.

Lemma last_alert_app_text (out : list printed) (s : string) :
  last_alert (out ++ [PrintText s]) = Some s.
Proof.
  induction out as [|[s'|e'] out IH]; cbn [app last_alert]; [reflexivity| |];
    rewrite IH; reflexivity.
Qed.

Lemma key_matches_console_tick
    (str_float : float -> string) (format_f : nat -> float -> string)
    (t : Tick) (fr : Frame) :
  key_matches_console fr ->
  key_matches_console (snd (tick str_float format_f t fr)).
Proof.
  intros K. destruct (old_text_acquire (page1 t) (page2 t) fr) as [O S].
  assert (Kq : key_matches_console (snd (acquire (page1 t) (page2 t) fr)))
    by (unfold key_matches_console; rewrite O, S; exact K).
  destruct (tick_cases str_float format_f t fr)
    as [E|[E|[(e & _ & E)|(stamp & txt & _ & _ & E)]]]; rewrite E; cbn [snd].
  - exact Kq.
  - unfold key_matches_console, print. cbn [snd stdout old_text].
    rewrite last_alert_app_exn. exact Kq.
  - unfold key_matches_console, print. cbn [snd stdout old_text].
    rewrite last_alert_app_exn. exact Kq.
  - unfold key_matches_console, print, set_old_text. cbn [snd stdout old_text].
    rewrite last_alert_app_text. exists stamp. reflexivity.
Qed.

(** X4: over any number of ticks the dedup key stays the last alert line of
    the console without its timestamp, and stays empty as long as no alert
    was printed; diagnostics never touch it. *)
Theorem key_matches_console_kept
    (str_float : float -> string) (format_f : nat -> float -> string)
    (ts : list Tick) (fr : Frame) :
  key_matches_console fr ->
  key_matches_console (snd (run str_float format_f ts fr)).
Proof.
  revert fr. induction ts as [|t ts IH]; intros fr K; [exact K|].
  rewrite run_cons. apply IH. apply key_matches_console_tick. exact K.
Qed.

Lemma key_matches_console_kept_witness :
  key_matches_console initial
  /\ key_matches_console
       (snd (run sketch_str_float sketch_format_f
               [mkTick page_down page_lbank_5_4 (Ok "1"%string);
                mkTick page_down page_down (Ok "2"%string);
                mkTick page_mexc_100_98 page_lbank_103_100 (Ok "3"%string)]
               initial)).
Proof.
  split; [reflexivity|].
  apply (key_matches_console_kept sketch_str_float sketch_format_f
           [mkTick page_down page_lbank_5_4 (Ok "1"%string);
            mkTick page_down page_down (Ok "2"%string);
            mkTick page_mexc_100_98 page_lbank_103_100 (Ok "3"%string)]
           initial).
  reflexivity.
Defined.

(** X5: a tick prints at most one line and never removes or rewrites what is
    on the console: after any ticks the console is the old one followed by at
    most one line per tick. *)
Theorem console_grows_by_one_line_per_tick
    (str_float : float -> string) (format_f : nat -> float -> string)
    (ts : list Tick) (fr : Frame) :
  exists added : list printed,
    stdout (snd (run str_float format_f ts fr)) = (stdout fr ++ added)%list
    /\ List.length added <= List.length ts.
Proof.
  revert fr. induction ts as [|t ts IH]; intros fr.
  - exists []. rewrite app_nil_r. split; [reflexivity|apply le_n].
  - rewrite run_cons.
    destruct (IH (snd (tick str_float format_f t fr))) as (added & E & L).
    destruct (old_text_acquire (page1 t) (page2 t) fr) as [_ S].
    assert (T : exists one, stdout (snd (tick str_float format_f t fr))
                            = (stdout fr ++ one)%list /\ List.length one <= 1).
    { destruct (tick_cases str_float format_f t fr)
        as [H|[H|[(e & _ & H)|(stamp & txt & _ & _ & H)]]]; rewrite H;
        cbn [snd print set_old_text stdout]; rewrite S.
      - exists []. rewrite app_nil_r. split; [reflexivity|auto].
      - eexists [_]. split; [reflexivity|auto].
      - eexists [_]. split; [reflexivity|auto].
      - eexists [_]. split; [reflexivity|auto]. }
    destruct T as (one & E1 & L1).
    exists (one ++ added)%list. rewrite E, E1, <- app_assoc. split; [reflexivity|].
    rewrite List.length_app. cbn [List.length]. lia.
Qed.

(** X6: with a working clock the only diagnostic a tick can print is that of
    the zero division; failed page reads never reach the console. *)
Theorem only_zero_division_is_reported
    (str_float : float -> string) (format_f : nat -> float -> string)
    (ts : list Tick) (fr : Frame) :
  Forall (fun t => clock_works (now t)) ts ->
  Forall alert_or_zero_division (stdout fr) ->
  Forall alert_or_zero_division (stdout (snd (run str_float format_f ts fr))).
Proof.
  revert fr. induction ts as [|t ts IH]; intros fr C F; [exact F|].
  rewrite run_cons. inversion C as [|t0 ts0 [stamp0 Ct] Cts]; subst.
  apply IH; [exact Cts|].
  destruct (old_text_acquire (page1 t) (page2 t) fr) as [_ S].
  destruct (tick_cases str_float format_f t fr)
    as [H|[H|[(e & N & H)|(stamp & txt & _ & _ & H)]]]; rewrite H;
    cbn [snd print set_old_text stdout]; rewrite S.
  - exact F.
  - apply Forall_app. split; [exact F|]. repeat constructor.
  - rewrite Ct in N. discriminate.
  - apply Forall_app. split; [exact F|]. repeat constructor.
Qed.

Lemma only_zero_division_is_reported_witness :
  Forall (fun t => clock_works (now t))
    [mkTick page_down page_down (Ok "1"%string);
     mkTick page_down page_lbank_5_4 (Ok "2"%string)]
  /\ Forall alert_or_zero_division (stdout initial)
  /\ Forall alert_or_zero_division
       (stdout (snd (run sketch_str_float sketch_format_f
                       [mkTick page_down page_down (Ok "1"%string);
                        mkTick page_down page_lbank_5_4 (Ok "2"%string)]
                       initial))).
Proof.
  assert (C : Forall (fun t => clock_works (now t))
                [mkTick page_down page_down (Ok "1"%string);
                 mkTick page_down page_lbank_5_4 (Ok "2"%string)]).
  { repeat constructor; eexists; reflexivity. }
  split; [exact C|]. split; [constructor|].
  apply (only_zero_division_is_reported sketch_str_float sketch_format_f
           [mkTick page_down page_down (Ok "1"%string);
            mkTick page_down page_lbank_5_4 (Ok "2"%string)] initial C).
  constructor.
Defined.

Lemma scan_value_all_fail (driver : WebDriver) (xpath_of : nat -> string)
    (xs : list nat) (current : float) :
  all_reads_fail driver ->
  scan_value (map (fun i => driver (xpath_of i)) xs) current = current.
Proof.
  intros F. destruct xs as [|i xs]; [reflexivity|]. cbn [map scan_value].
  destruct (F (xpath_of i)) as [e ->]. reflexivity.
Qed.

Lemma tick_both_down
    (str_float : float -> string) (format_f : nat -> float -> string)
    (t : Tick) (fr : Frame) :
  all_reads_fail (page1 t) -> all_reads_fail (page2 t) ->
  tick str_float format_f t fr
  = (Ok tt, mkFrame 0 0 0 0 (old_text fr) (stdout fr ++ [PrintExn ZeroDivisionError])).
Proof.
  intros F1 F2. rewrite tick_eq, acquire_eq. cbn [snd].
  rewrite !scan_value_all_fail by assumption.
  destruct (F1 xpath_buy_mexc) as [e ->].
  rewrite decide_eq. reflexivity.
Qed.

(** X7: while every read of both pages fails, each tick computes 0/0, and
    its [ZeroDivisionError] is printed again at every tick: diagnostics are
    not deduplicated, and [old_text] is left alone. *)
Theorem both_pages_down_prints_every_tick
    (str_float : float -> string) (format_f : nat -> float -> string)
    (ts : list Tick) (fr : Frame) :
  Forall (fun t => all_reads_fail (page1 t) /\ all_reads_fail (page2 t)) ts ->
  stdout (snd (run str_float format_f ts fr))
  = (stdout fr ++ repeat (PrintExn ZeroDivisionError) (List.length ts))%list
  /\ old_text (snd (run str_float format_f ts fr)) = old_text fr.
Proof.
  revert fr. induction ts as [|t ts IH]; intros fr F.
  - cbn. rewrite app_nil_r. split; reflexivity.
  - inversion F as [|t0 ts0 [F1 F2] Fts]; subst.
    rewrite run_cons, (tick_both_down str_float format_f t fr F1 F2). cbn [snd].
    destruct (IH (mkFrame 0 0 0 0 (old_text fr)
                    (stdout fr ++ [PrintExn ZeroDivisionError])) Fts) as [S O].
    rewrite S, O. cbn [stdout old_text List.length repeat].
    rewrite <- app_assoc. split; reflexivity.
Qed.

Lemma both_pages_down_prints_every_tick_witness :
  Forall (fun t => all_reads_fail (page1 t) /\ all_reads_fail (page2 t))
    [mkTick page_down page_down (Ok "1"%string);
     mkTick page_down page_down (Raise RuntimeError)]
  /\ stdout (snd (run sketch_str_float sketch_format_f
                    [mkTick page_down page_down (Ok "1"%string);
                     mkTick page_down page_down (Raise RuntimeError)] initial))
     = (stdout initial ++ repeat (PrintExn ZeroDivisionError) 2)%list.
Proof.
  assert (D : all_reads_fail page_down)
    by (intros xpath; exists NoSuchElementException; reflexivity).
  assert (F : Forall (fun t => all_reads_fail (page1 t) /\ all_reads_fail (page2 t))
                [mkTick page_down page_down (Ok "1"%string);
                 mkTick page_down page_down (Raise RuntimeError)]).
  { repeat constructor; exact D. }
  split; [exact F|].
  apply (both_pages_down_prints_every_tick sketch_str_float sketch_format_f
           [mkTick page_down page_down (Ok "1"%string);
            mkTick page_down page_down (Raise RuntimeError)] initial F).
Defined.

Lemma SFsub_diag_finite (prec emax : Z) (s : bool) (m : positive) (e : Z) :
  SFsub prec emax (S754_finite s m e) (S754_finite s m e) = S754_zero false.
Proof. cbn [SFsub]. rewrite Z.sub_diag. reflexivity. Qed.

Lemma equal_prices_percent (p : float) :
  (0 <? p) = true -> (1.5 <? abs (p - p) / ((p + p) / 2) * 100) = false.
Proof.
  intros H.
  rewrite ltb_spec, mul_spec, div_spec, abs_spec, sub_spec.
  unfold SF64mul, SF64div, SF64sub.
  destruct (Prim2SF (100)) as [sh|sh| |sh mh eh] eqn:E100; try discriminate E100.
  change (Prim2SF 1.5) with (S754_finite false 6755399441055744 (-52)).
  destruct (positive_cases p H) as [(m & e & E)|E]; rewrite E.
  - rewrite SFsub_diag_finite. cbn [SFabs].
    destruct (Prim2SF ((p + p) / 2)) as [s|s| |s m' e']; try destruct s;
      reflexivity.
  - cbn [SFsub SFabs].
    destruct (Prim2SF ((p + p) / 2)) as [s|s| |s m' e']; reflexivity.
Qed.

(** X8: when the two prices of the selected direction are the same positive
    number the tick prints nothing and keeps [old_text]: the percentage is 0
    (NaN for two infinities), never above the threshold. *)
Theorem equal_prices_never_alert
    (str_float : float -> string) (format_f : nat -> float -> string)
    (now : result string) (fr : Frame) :
  fst (selected_pair fr) = snd (selected_pair fr) ->
  (0 <? fst (selected_pair fr)) = true ->
  decide str_float format_f now fr = (Ok tt, fr).
Proof.
  intros E P. rewrite decide_eq, <- E.
  pose proof (mean_positive_nonzero _ _ P P) as Z.
  pose proof (equal_prices_percent _ P) as L.
  destruct (mexc_buy_branch_taken fr); rewrite alert_branch_eq, Z; cbv zeta;
    rewrite L; reflexivity.
Qed.

Lemma equal_prices_never_alert_witness :
  fst (selected_pair (mkFrame 100 95 105 100 "" []))
  = snd (selected_pair (mkFrame 100 95 105 100 "" []))
  /\ (0 <? fst (selected_pair (mkFrame 100 95 105 100 "" []))) = true
  /\ decide sketch_str_float sketch_format_f (Ok "t"%string)
       (mkFrame 100 95 105 100 "" [])
     = (Ok tt, mkFrame 100 95 105 100 "" []).
Proof.
  split; [reflexivity|]. split; [reflexivity|].
  apply (equal_prices_never_alert sketch_str_float sketch_format_f (Ok "t"%string)
           (mkFrame 100 95 105 100 "" [])); reflexivity.
Defined.

Lemma ltb_nan_left (x y : float) : Prim2SF x = S754_nan -> (x <? y) = false.
Proof. intros H. rewrite ltb_spec, H. reflexivity. Qed.

Lemma ltb_nan_right (x y : float) : Prim2SF y = S754_nan -> (x <? y) = false.
Proof.
  intros H. rewrite ltb_spec, H. unfold SFltb.
  destruct (Prim2SF x); reflexivity.
Qed.

Lemma abs_sub_nan (x y : float) :
  is_nan x = true \/ is_nan y = true -> Prim2SF (abs (x - y)) = S754_nan.
Proof.
  unfold is_nan. rewrite !negb_true_iff, !eqb_spec, abs_spec, sub_spec.
  intros [H|H]; apply SFeqb_refl_nan in H; rewrite H; unfold SF64sub.
  - reflexivity.
  - destruct (Prim2SF x); reflexivity.
Qed.

(** X9: a NaN among the four prices sends the tick into the [else] branch
    (sell on MEXC, buy on LBank), because the comparison of line 81 is false
    as soon as one of the two differences is NaN. *)
Theorem nan_price_takes_second_direction (fr : Frame) :
  is_nan (data_last_sell_mexc fr) = true \/ is_nan (data_last_buy_mexc fr) = true
  \/ is_nan (data_last_sell_lbank fr) = true \/ is_nan (data_last_buy_lbank fr) = true ->
  mexc_buy_branch_taken fr = false
  /\ selected_pair fr = (data_last_sell_mexc fr, data_last_buy_lbank fr).
Proof.
  intros H.
  assert (B : mexc_buy_branch_taken fr = false).
  { unfold mexc_buy_branch_taken.
    destruct H as [H|[H|[H|H]]].
    - apply ltb_nan_right, abs_sub_nan. left. exact H.
    - apply ltb_nan_left, abs_sub_nan. left. exact H.
    - apply ltb_nan_left, abs_sub_nan. right. exact H.
    - apply ltb_nan_right, abs_sub_nan. right. exact H. }
  split; [exact B|]. unfold selected_pair. rewrite B. reflexivity.
Qed.

Lemma nan_price_takes_second_direction_witness :
  (is_nan (data_last_sell_mexc (mkFrame 100 nan 101 100 "" [])) = true
   \/ is_nan (data_last_buy_mexc (mkFrame 100 nan 101 100 "" [])) = true
   \/ is_nan (data_last_sell_lbank (mkFrame 100 nan 101 100 "" [])) = true
   \/ is_nan (data_last_buy_lbank (mkFrame 100 nan 101 100 "" [])) = true)
  /\ selected_pair (mkFrame 100 nan 101 100 "" []) = (100, 100).
Proof.
  split; [right; left; reflexivity|].
  apply (nan_price_takes_second_direction (mkFrame 100 nan 101 100 "" [])).
  right; left; reflexivity.
Defined.



Lemma alert_branch_fields
    (str_float : float -> string) (format_f : nat -> float -> string)
    (c1 c2 : string) (data1 data2 : float) (now : result string) (fr : Frame) :
  let fr' := snd (alert_branch str_float format_f c1 c2 data1 data2 now fr) in
  data_last_sell_mexc fr' = data_last_sell_mexc fr
  /\ data_last_buy_mexc fr' = data_last_buy_mexc fr
  /\ data_last_sell_lbank fr' = data_last_sell_lbank fr
  /\ data_last_buy_lbank fr' = data_last_buy_lbank fr.
Proof.
  cbv zeta.
  destruct (alert_branch_cases str_float format_f c1 c2 data1 data2 now fr)
    as [E|[E|[(e & _ & E)|(stamp & txt & _ & _ & E)]]]; rewrite E;
    repeat split.
Qed.

Lemma decide_fields
    (str_float : float -> string) (format_f : nat -> float -> string)
    (now : result string) (fr : Frame) :
  let fr' := snd (decide str_float format_f now fr) in
  data_last_sell_mexc fr' = data_last_sell_mexc fr
  /\ data_last_buy_mexc fr' = data_last_buy_mexc fr
  /\ data_last_sell_lbank fr' = data_last_sell_lbank fr
  /\ data_last_buy_lbank fr' = data_last_buy_lbank fr.
Proof.
  cbv zeta. rewrite decide_eq.
  destruct (mexc_buy_branch_taken fr); apply alert_branch_fields.
Qed.

Lemma alert_branch_repeated
    (str_float : float -> string) (format_f : nat -> float -> string)
    (c1 c2 : string) (data1 data2 : float) (stamp : string) (now' : result string)
    (fr : Frame) :
  let fr1 := snd (alert_branch str_float format_f c1 c2 data1 data2 (Ok stamp) fr) in
  alert_branch str_float format_f c1 c2 data1 data2 now' fr1 = (Ok tt, fr1)
  \/ alert_branch str_float format_f c1 c2 data1 data2 now' fr1
     = (Ok tt, snd (print (PrintExn ZeroDivisionError) fr1)).
Proof.
  cbv zeta. rewrite !alert_branch_eq.
  destruct ((data1 + data2) / 2 =? 0); [right; reflexivity|]. cbv zeta.
  destruct (1.5 <? abs (data1 - data2) / ((data1 + data2) / 2) * 100);
    [|left; reflexivity].
  destruct (String.eqb (old_text fr) _) eqn:E; cbn [snd].
  - rewrite E. left. reflexivity.
  - cbn [set_old_text print snd old_text]. rewrite String.eqb_refl. left. reflexivity.
Qed.

Lemma decide_repeated
    (str_float : float -> string) (format_f : nat -> float -> string)
    (stamp : string) (now' : result string) (fr : Frame) :
  let fr1 := snd (decide str_float format_f (Ok stamp) fr) in
  decide str_float format_f now' fr1 = (Ok tt, fr1)
  \/ decide str_float format_f now' fr1
     = (Ok tt, snd (print (PrintExn ZeroDivisionError) fr1)).
Proof.
  cbv zeta.
  destruct (decide_fields str_float format_f (Ok stamp) fr) as (F1 & F2 & F3 & F4).
  rewrite (decide_eq str_float format_f now').
  assert (B : mexc_buy_branch_taken (snd (decide str_float format_f (Ok stamp) fr))
              = mexc_buy_branch_taken fr).
  { unfold mexc_buy_branch_taken. rewrite F1, F2, F3, F4. reflexivity. }
  assert (P : selected_pair (snd (decide str_float format_f (Ok stamp) fr))
              = selected_pair fr).
  { unfold selected_pair. rewrite B, F1, F2, F3, F4. reflexivity. }
  rewrite B, P. rewrite (decide_eq str_float format_f (Ok stamp)).
  destruct (mexc_buy_branch_taken fr); apply alert_branch_repeated.
Qed.

Lemma frame_eta (fr : Frame) :
  mkFrame (data_last_sell_mexc fr) (data_last_buy_mexc fr) (data_last_sell_lbank fr)
    (data_last_buy_lbank fr) (old_text fr) (stdout fr) = fr.
Proof. destruct fr. reflexivity. Qed.

(** X11: when the pages show the same prices at the next tick, that tick
    prints no alert: it leaves the frame as the previous tick left it, or
    prints the zero-division diagnostic again. The previous tick's clock
    call must have returned, since a failing clock leaves the key unset. *)
Theorem unchanged_pages_never_alert_twice
    (str_float : float -> string) (format_f : nat -> float -> string)
    (t t' : Tick) (fr : Frame) :
  clock_works (now t) ->
  page1 t' = page1 t -> page2 t' = page2 t ->
  let fr1 := snd (tick str_float format_f t fr) in
  tick str_float format_f t' fr1 = (Ok tt, fr1)
  \/ tick str_float format_f t' fr1
     = (Ok tt, snd (print (PrintExn ZeroDivisionError) fr1)).
Proof.
  intros [stamp C] E1 E2. cbv zeta.
  rewrite (tick_eq str_float format_f t'), (tick_eq str_float format_f t), E1, E2, C.
  set (q := snd (acquire (page1 t) (page2 t) fr)).
  set (fr1 := snd (decide str_float format_f (Ok stamp) q)).
  assert (A : snd (acquire (page1 t) (page2 t) fr1) = fr1).
  { destruct (decide_fields str_float format_f (Ok stamp) q) as (F1 & F2 & F3 & F4).
    fold fr1 in F1, F2, F3, F4.
    rewrite acquire_eq. cbn [snd]. rewrite <- (frame_eta fr1) at 3.
    rewrite F1, F2, F3, F4. unfold q. rewrite acquire_eq. reflexivity. }
  rewrite A. apply decide_repeated.
Qed.

Lemma unchanged_pages_never_alert_twice_witness :
  clock_works (now (mkTick page_down page_lbank_5_4 (Ok "1"%string)))
  /\ stdout (snd (run sketch_str_float sketch_format_f
                    [mkTick page_down page_lbank_5_4 (Ok "1"%string);
                     mkTick page_down page_lbank_5_4 (Ok "2"%string)] initial))
     = stdout (snd (tick sketch_str_float sketch_format_f
                      (mkTick page_down page_lbank_5_4 (Ok "1"%string)) initial))
  /\ (tick sketch_str_float sketch_format_f
        (mkTick page_down page_lbank_5_4 (Ok "2"%string))
        (snd (tick sketch_str_float sketch_format_f
                (mkTick page_down page_lbank_5_4 (Ok "1"%string)) initial))
      = (Ok tt,
         snd (tick sketch_str_float sketch_format_f
                (mkTick page_down page_lbank_5_4 (Ok "1"%string)) initial))
      \/ tick sketch_str_float sketch_format_f
           (mkTick page_down page_lbank_5_4 (Ok "2"%string))
           (snd (tick sketch_str_float sketch_format_f
                   (mkTick page_down page_lbank_5_4 (Ok "1"%string)) initial))
         = (Ok tt,
            snd (print (PrintExn ZeroDivisionError)
                   (snd (tick sketch_str_float sketch_format_f
                           (mkTick page_down page_lbank_5_4 (Ok "1"%string)) initial))))).
Proof.
  split; [exists "1"%string; reflexivity|]. split; [reflexivity|].
  apply (unchanged_pages_never_alert_twice sketch_str_float sketch_format_f
           (mkTick page_down page_lbank_5_4 (Ok "1"%string))
           (mkTick page_down page_lbank_5_4 (Ok "2"%string)) initial).
  - exists "1"%string. reflexivity.
  - reflexivity.
  - reflexivity.
Defined.
